(** * Flet control bindings: attribute store, validation hooks, child tagging

    A shallow embedding of the Python control classes of the repository
    (AlertDialog, AppBar, AutoComplete, Badge, BottomAppBar, Card,
    ConstrainedControl, CupertinoTextField, SafeArea, Flashlight) together
    with the properties stated about them.

    Python objects are modelled as they are at run time: an instance
    dictionary (which holds the name-mangled private fields a class
    assigns with [self.__x = v]) next to the attribute map that the
    [Control] base class keeps for serialization.  Reading an instance
    field that was never assigned raises [AttributeError], iterating over
    [None] raises [TypeError], a failed [assert] raises [AssertionError]. *)

From Stdlib Require Import QArith String Ascii List.
From stdpp Require Import base option gmap strings list.

Open Scope string_scope.
Open Scope list_scope.

(** ** Python values *)

(** [VNum] stands for both [int] and [float] values, by the rational they
    denote.  [VData] is a value object (a dataclass such as [TextStyle],
    [Padding] or [AutoCompleteSuggestion]) with the names of its class and
    of the bases of that class, and its fields.  [VJson v] is the text the
    generic JSON encoder produces for [v].  [VObj] is a control. *)
#[warnings="-register-all"] Inductive PyVal : Type :=
| VNone
| VBool (b : bool)
| VNum (q : Q)
| VStr (s : string)
| VList (l : list PyVal)
| VData (mro : list string) (kw : list (string * PyVal))
| VJson (v : PyVal)
| VObj (o : Obj)
with Obj : Type :=
| mkObj (control_name : string)
        (attrs : gmap string PyVal)
        (dict : gmap string PyVal).

Definition control_name (o : Obj) : string :=
  match o with mkObj n _ _ => n end.
Definition attrs (o : Obj) : gmap string PyVal :=
  match o with mkObj _ a _ => a end.
Definition dict (o : Obj) : gmap string PyVal :=
  match o with mkObj _ _ d => d end.

Definition is_none (v : PyVal) : bool :=
  match v with VNone => true | _ => false end.

(** Truth value of an object, as [if v:], [v or w] and [assert v] test it.
    Controls and value objects define neither [__bool__] nor [__len__]. *)
Definition truthy (v : PyVal) : bool :=
  match v with
  | VNone => false
  | VBool b => b
  | VNum q => negb (Qeq_bool q 0)
  | VStr s => negb (String.eqb s "")
  | VList l => match l with [] => false | _ => true end
  | VData _ _ => true
  | VJson _ => true
  | VObj _ => true
  end.

(** [a or b] *)
Definition py_or (a b : PyVal) : PyVal := if truthy a then a else b.

(** [isinstance(v, C)] for a value-object class [C]. *)
Definition isinstance (v : PyVal) (C : string) : bool :=
  match v with
  | VData mro _ => bool_decide (C ∈ mro)
  | _ => false
  end.

(** [s == v] for a string literal [s]. *)
Definition str_eq (s : string) (v : PyVal) : bool :=
  match v with VStr t => String.eqb s t | _ => false end.

(** ** Exceptions and the result of a call *)

Inductive PyErr : Type :=
| AssertionError (msg : string)
| AttributeError (name : string)
| TypeError (msg : string)
| ValueError (msg : string).

Inductive Result (A : Type) : Type :=
| Ok (a : A)
| Raise (e : PyErr).
Arguments Ok {A} a.
Arguments Raise {A} e.

#[global] Instance Result_ret : MRet Result := fun A a => Ok a.
#[global] Instance Result_bind : MBind Result := fun A B f r =>
  match r with Ok a => f a | Raise e => Raise e end.

(** [assert c, msg] *)
Definition py_assert (c : bool) (msg : string) : Result unit :=
  if c then Ok tt else Raise (AssertionError msg).

(** Numeric view of a value in a comparison ([True] is 1, [False] is 0). *)
Definition as_number (v : PyVal) : Result Q :=
  match v with
  | VNum q => Ok q
  | VBool b => Ok (if b then 1%Q else 0%Q)
  | _ => Raise (TypeError "'>=' not supported between these instances")
  end.

(** [a >= b] *)
Definition py_ge (a b : PyVal) : Result bool :=
  x ← as_number a; y ← as_number b; Ok (Qle_bool y x).

(** ** Instance fields *)

(** Inside the body of class [C], [self.__name] is the instance field
    [_C__name] (name mangling); the field names below are written out in
    that form. *)

(** [self.name] read *)
Definition getfield (self : Obj) (name : string) : Result PyVal :=
  match dict self !! name with
  | Some v => Ok v
  | None => Raise (AttributeError name)
  end.

(** [self.name = v] *)
Definition setfield (self : Obj) (name : string) (v : PyVal) : Obj :=
  mkObj (control_name self) (attrs self) (<[name := v]> (dict self)).

(** Keyword arguments of a constructor call; an argument that is not
    passed takes its default. *)
Definition arg (kw : gmap string PyVal) (name : string) (dflt : PyVal) : PyVal :=
  default dflt (kw !! name).

(** ** Text helpers used by the attribute coercions *)

(** [s.lower()], on the letters A to Z; other characters are kept.  (No
    other character has one of the letters of "true" as its lower case, so
    [lower s] is "true" exactly when [s.lower() == "true"].) *)
Definition lower_ascii (c : ascii) : ascii :=
  let n := N_of_ascii c in
  if ((65 <=? n) && (n <=? 90))%N then ascii_of_N (n + 32) else c.

Fixpoint lower (s : string) : string :=
  match s with
  | EmptyString => EmptyString
  | String c s' => String (lower_ascii c) (lower s')
  end.

(** ** Conversions built into the language *)

(** [float(s)] and [int(s)] on text belong to the language and not to the
    repository: which text they accept, which number they return and when
    they raise [ValueError] is left open.  The control classes are read
    against an arbitrary pair of conversions, and every property below
    holds whatever the two conversions do. *)
Class Builtins : Type := {
  py_float : string -> Result PyVal;
  py_int : string -> Result PyVal
}.

(** ** The Control base class *)

Module Control.

Section WithBuiltins.
Context {builtins : Builtins}.

(** Modelled from the spec: the attribute store of [Control]
    ([flet_core/control.py] is not part of the sources).  The store is an
    open map from attribute name to value; [set_attr(name, value)] stores
    the value or, for [None], clears the entry. *)
Definition _set_attr (self : Obj) (name : string) (value : PyVal) : Obj :=
  mkObj (control_name self)
        (if is_none value then delete name (attrs self)
         else <[name := value]> (attrs self))
        (dict self).

(** Modelled from the spec: the internal marker attribute that carries the
    role of a child is written through the same store. *)
Definition _set_attr_internal (self : Obj) (name : string) (value : PyVal) : Obj :=
  _set_attr self name value.

(** Modelled from the spec: the type coercion of [get_attr]
    (bool/float/int), which turns text held in the store into a value of
    the declared type, for float and int by the conversion of the
    language; any other data type, and any value that is not text, is
    returned as stored. *)
Definition coerce (data_type : string) (v : PyVal) : Result PyVal :=
  match v with
  | VStr s =>
      if String.eqb data_type "bool" then Ok (VBool (String.eqb (lower s) "true"))
      else if String.eqb data_type "float" then py_float s
      else if String.eqb data_type "int" then py_int s
      else Ok v
  | _ => Ok v
  end.

(** Modelled from the spec: [get_attr(name, default)] retrieves with type
    coercion and falls back to the default if the entry is absent. *)
Definition _get_attr (self : Obj) (name : string)
           (def_value : PyVal) (data_type : string) : Result PyVal :=
  match attrs self !! name with
  | None => Ok def_value
  | Some v => coerce data_type v
  end.

(** Modelled from the spec: the generic encoder; encoding [None] is a
    no-op and encoding does not change its argument. *)
Definition _convert_attr_json (value : PyVal) : PyVal :=
  if is_none value then VNone else VJson value.

(** Modelled from the spec: a structured value is flattened into a
    JSON-encoded attribute. *)
Definition _set_attr_json (self : Obj) (name : string) (value : PyVal) : Obj :=
  _set_attr self name (_convert_attr_json value).

(** Modelled from the spec: [visible] is a property of every control, kept
    in the attribute store; a control is visible unless told otherwise. *)
Definition visible (self : Obj) : Result PyVal :=
  _get_attr self "visible" (VBool true) "bool".

Definition set_visible (self : Obj) (value : PyVal) : Obj :=
  _set_attr self "visible" value.

(** Modelled from the spec: the base constructor creates a control with
    an empty attribute map and stores the common properties it is given. *)
Definition base_props : list (string * string) :=
  [("visible", "visible"); ("disabled", "disabled"); ("opacity", "opacity");
   ("tooltip", "tooltip"); ("rtl", "rtl"); ("expand_loose", "expandLoose")].

Definition __init__ (name : string) (kw : gmap string PyVal) : Obj :=
  foldl (fun o '(a, key) => _set_attr o key (arg kw a VNone))
        (mkObj name ∅ ∅) base_props.

(** Modelled from the spec: the base hook validates nothing. *)
Definition before_update (self : Obj) : Result Obj := Ok self.

(** The role tag of a child. *)
Definition role (self : Obj) : option PyVal := attrs self !! "n".

End WithBuiltins.

End Control.

(** Modelled from the spec: [AdaptiveControl] adds the [adaptive] property
    to the attribute store ([flet_core/adaptive_control.py] is not part of
    the sources). *)
Module AdaptiveControl.
Definition __init__ (self : Obj) (adaptive : PyVal) : Obj :=
  Control._set_attr self "adaptive" adaptive.
End AdaptiveControl.

(** ** Property plumbing shared by the control classes *)

(** A setter of the form [self._set_attr(key, value)]. *)
Definition attr_setter (key : string) (self : Obj) (value : PyVal) : Result Obj :=
  Ok (Control._set_attr self key value).

(** A setter of the form [self.__field = value]. *)
Definition field_setter (field : string) (self : Obj) (value : PyVal) : Result Obj :=
  Ok (setfield self field value).

(** The assignments [self.p = p] of a constructor, in source order. *)
Definition assign_all (props : list (string * (Obj -> PyVal -> Result Obj)))
           (kw : gmap string PyVal) (self : Obj) : Result Obj :=
  foldl (fun r '(a, set) => o ← r; set o (arg kw a VNone)) (Ok self) props.

(** [self._set_attr_json(key, self.__field)] *)
Definition json_from_field (field key : string) (self : Obj) : Result Obj :=
  v ← getfield self field;
  Ok (Control._set_attr_json self key v).

(** [if isinstance(self.__field, C): self._set_attr_json(key, self.__field)] *)
Definition json_from_field_if (C field key : string) (self : Obj) : Result Obj :=
  v ← getfield self field;
  if isinstance v C then json_from_field field key self else Ok self.

(** [child._set_attr_internal("n", role)]; the receiver has to be a
    control.  The child is held by value, and the tagged child is what the
    caller puts back in its place: this describes a control that occurs
    once among the children of its parent.  (The code tags the object in
    place, so a control placed in two slots of one parent would show its
    last role in both.) *)
Definition tag (role : string) (child : PyVal) : Result PyVal :=
  match child with
  | VObj c => Ok (VObj (Control._set_attr_internal c "n" (VStr role)))
  | _ => Raise (AttributeError "_set_attr_internal")
  end.

(** [child.visible]; the receiver has to be a control. *)
Definition visible_of {builtins : Builtins} (child : PyVal) : Result PyVal :=
  match child with
  | VObj c => Control.visible c
  | _ => Raise (AttributeError "visible")
  end.

(** The elements a [for] loop draws from [v]. *)
Definition py_iter (v : PyVal) : Result (list PyVal) :=
  match v with
  | VList l => Ok l
  | VNone => Raise (TypeError "'NoneType' object is not iterable")
  | _ => Raise (TypeError "object is not iterable")
  end.

Fixpoint mapM {A B} (f : A -> Result B) (l : list A) : Result (list B) :=
  match l with
  | [] => Ok []
  | x :: l' => y ← f x; ys ← mapM f l'; Ok (y :: ys)
  end.

(** [a or b], where [b] is evaluated only if [a] is false. *)
Definition py_or_else (a : PyVal) (b : Result PyVal) : Result PyVal :=
  if truthy a then Ok a else b.

(** ** Remote method invocation *)

(** A call of [invoke_method] (blocking) or [invoke_method_async] (awaited)
    with its arguments.  The transport is outside the repository: a method
    that invokes it is a request followed by a continuation on the text the
    transport yields ([None] when nothing came back). *)
Inductive CallKind : Type := Blocking | Awaited.

Record Call : Type := mkCall {
  call_kind : CallKind;
  method_name : string;
  wait_for_result : bool;
  wait_timeout : PyVal
}.

Inductive Remote (A : Type) : Type :=
| Done (a : A)
| Invoke (c : Call) (k : PyVal -> Remote A).
Arguments Done {A} a.
Arguments Invoke {A} c k.

(** What the transport is asked: everything but the kind of the call. *)
Definition request (c : Call) : string * bool * PyVal :=
  (method_name c, wait_for_result c, wait_timeout c).

(** Runs a method against a transport that answers every request, and
    records the calls made. *)
Fixpoint run {A} (transport : string * bool * PyVal -> PyVal) (p : Remote A)
  : list Call * A :=
  match p with
  | Done a => ([], a)
  | Invoke c k =>
      let '(log, a) := run transport (k (transport (request c))) in
      (c :: log, a)
  end.

(** ** Flashlight *)

Module Flashlight.

Definition __init__ (kw : gmap string PyVal) : Obj :=
  let self := Control.__init__ "flashlight" kw in
  setfield self "turned_on" (VBool false).

Definition _toggle_state (self : Obj) (sr : PyVal) (on : bool)
  : Result (Obj * PyVal) :=
  v ← (if str_eq "1" sr then Ok (VBool on) else getfield self "turned_on");
  let self := setfield self "turned_on" v in
  r ← getfield self "turned_on";
  Ok (self, r).

Definition turn_on (self : Obj) (wait_timeout : PyVal)
  : Remote (Result (Obj * PyVal)) :=
  Invoke (mkCall Blocking "on" true wait_timeout)
         (fun sr => Done (_toggle_state self sr true)).

Definition turn_on_async (self : Obj) (wait_timeout : PyVal)
  : Remote (Result (Obj * PyVal)) :=
  Invoke (mkCall Awaited "on" true wait_timeout)
         (fun sr => Done (_toggle_state self sr true)).

Definition turn_off (self : Obj) (wait_timeout : PyVal)
  : Remote (Result (Obj * PyVal)) :=
  Invoke (mkCall Blocking "off" true wait_timeout)
         (fun sr => Done (_toggle_state self sr false)).

Definition turn_off_async (self : Obj) (wait_timeout : PyVal)
  : Remote (Result (Obj * PyVal)) :=
  Invoke (mkCall Awaited "off" true wait_timeout)
         (fun sr => Done (_toggle_state self sr false)).

Definition toggle (self : Obj) (wait_timeout : PyVal)
  : Remote (Result (Obj * PyVal)) :=
  match getfield self "turned_on" with
  | Raise e => Done (Raise e)
  | Ok t =>
      let _func := if truthy t then turn_off else turn_on in
      _func self wait_timeout
  end.

Definition toggle_async (self : Obj) (wait_timeout : PyVal)
  : Remote (Result (Obj * PyVal)) :=
  match getfield self "turned_on" with
  | Raise e => Done (Raise e)
  | Ok t =>
      if truthy t then turn_off_async self wait_timeout
      else turn_on_async self wait_timeout
  end.

End Flashlight.

(** ** ConstrainedControl *)

Module ConstrainedControl.

Section WithBuiltins.
Context {builtins : Builtins}.

Definition key (self : Obj) := Control._get_attr self "key" VNone "string".
Definition set_key := attr_setter "key".
Definition width (self : Obj) := Control._get_attr self "width" VNone "string".
Definition set_width := attr_setter "width".
Definition height (self : Obj) := Control._get_attr self "height" VNone "string".
Definition set_height := attr_setter "height".
Definition left (self : Obj) := Control._get_attr self "left" VNone "string".
Definition set_left := attr_setter "left".
Definition top (self : Obj) := Control._get_attr self "top" VNone "string".
Definition set_top := attr_setter "top".
Definition right (self : Obj) := Control._get_attr self "right" VNone "string".
Definition set_right := attr_setter "right".
Definition bottom (self : Obj) := Control._get_attr self "bottom" VNone "string".
Definition set_bottom := attr_setter "bottom".
Definition rotate (self : Obj) := getfield self "_ConstrainedControl__rotate".
Definition set_rotate := field_setter "_ConstrainedControl__rotate".
Definition scale (self : Obj) := getfield self "_ConstrainedControl__scale".
Definition set_scale := field_setter "_ConstrainedControl__scale".
Definition offset (self : Obj) := getfield self "_ConstrainedControl__offset".
Definition set_offset := field_setter "_ConstrainedControl__offset".
Definition aspect_ratio (self : Obj) :=
  Control._get_attr self "aspectRatio" VNone "string".
Definition set_aspect_ratio := attr_setter "aspectRatio".
Definition animate_opacity (self : Obj) :=
  getfield self "_ConstrainedControl__animate_opacity".
Definition set_animate_opacity := field_setter "_ConstrainedControl__animate_opacity".
Definition animate_size (self : Obj) :=
  getfield self "_ConstrainedControl__animate_size".
Definition set_animate_size := field_setter "_ConstrainedControl__animate_size".
Definition animate_position (self : Obj) :=
  getfield self "_ConstrainedControl__animate_position".
Definition set_animate_position := field_setter "_ConstrainedControl__animate_position".
Definition animate_rotation (self : Obj) :=
  getfield self "_ConstrainedControl__animate_rotation".
Definition set_animate_rotation := field_setter "_ConstrainedControl__animate_rotation".
Definition animate_scale (self : Obj) :=
  getfield self "_ConstrainedControl__animate_scale".
Definition set_animate_scale := field_setter "_ConstrainedControl__animate_scale".
Definition animate_offset (self : Obj) :=
  getfield self "_ConstrainedControl__animate_offset".
Definition set_animate_offset := field_setter "_ConstrainedControl__animate_offset".

(** [self._add_event_handler("animation_end", handler)] keeps the handler
    with the object; then the attribute records whether one is set. *)
Definition set_on_animation_end (self : Obj) (handler : PyVal) : Result Obj :=
  let self := setfield self "event_handlers.animation_end" handler in
  Ok (Control._set_attr self "onAnimationEnd"
        (if negb (is_none handler) then VBool true else VNone)).

Definition props : list (string * (Obj -> PyVal -> Result Obj)) :=
  [("key", set_key);
   ("width", set_width);
   ("height", set_height);
   ("left", set_left);
   ("top", set_top);
   ("right", set_right);
   ("bottom", set_bottom);
   ("scale", set_scale);
   ("rotate", set_rotate);
   ("offset", set_offset);
   ("aspect_ratio", set_aspect_ratio);
   ("animate_opacity", set_animate_opacity);
   ("animate_size", set_animate_size);
   ("animate_position", set_animate_position);
   ("animate_rotation", set_animate_rotation);
   ("animate_scale", set_animate_scale);
   ("animate_offset", set_animate_offset);
   ("on_animation_end", set_on_animation_end)].

Definition __init__ (name : string) (kw : gmap string PyVal) : Result Obj :=
  assign_all props kw (Control.__init__ name kw).

Definition before_update (self : Obj) : Result Obj :=
  self ← Control.before_update self;
  self ← json_from_field "_ConstrainedControl__rotate" "rotate" self;
  self ← json_from_field "_ConstrainedControl__scale" "scale" self;
  self ← json_from_field "_ConstrainedControl__offset" "offset" self;
  self ← json_from_field "_ConstrainedControl__animate_opacity" "animateOpacity" self;
  self ← json_from_field "_ConstrainedControl__animate_size" "animateSize" self;
  self ← json_from_field "_ConstrainedControl__animate_position" "animatePosition" self;
  self ← json_from_field "_ConstrainedControl__animate_rotation" "animateRotation" self;
  self ← json_from_field "_ConstrainedControl__animate_scale" "animateScale" self;
  json_from_field "_ConstrainedControl__animate_offset" "animateOffset" self.

End WithBuiltins.

End ConstrainedControl.

(** ** SafeArea *)

Module SafeArea.

Section WithBuiltins.
Context {builtins : Builtins}.

Definition left (self : Obj) := Control._get_attr self "left" (VBool true) "bool".
Definition set_left := attr_setter "left".
Definition top (self : Obj) := Control._get_attr self "top" (VBool true) "bool".
Definition set_top := attr_setter "top".
Definition right (self : Obj) := Control._get_attr self "right" (VBool true) "bool".
Definition set_right := attr_setter "right".
Definition bottom (self : Obj) := Control._get_attr self "bottom" (VBool true) "bool".
Definition set_bottom := attr_setter "bottom".
Definition maintain_bottom_view_padding (self : Obj) :=
  Control._get_attr self "maintainBottomViewPadding" (VBool false) "bool".
Definition set_maintain_bottom_view_padding := attr_setter "maintainBottomViewPadding".
Definition content (self : Obj) := getfield self "_SafeArea__content".
Definition set_content := field_setter "_SafeArea__content".
(** Reading or assigning [minimum] also emits a deprecation warning, which
    does not change the object. *)
Definition minimum (self : Obj) := getfield self "_SafeArea__minimum".
Definition set_minimum := field_setter "_SafeArea__minimum".
Definition minimum_padding (self : Obj) := getfield self "_SafeArea__minimum_padding".
Definition set_minimum_padding := field_setter "_SafeArea__minimum_padding".

Definition props : list (string * (Obj -> PyVal -> Result Obj)) :=
  [("content", set_content);
   ("left", set_left);
   ("top", set_top);
   ("right", set_right);
   ("bottom", set_bottom);
   ("maintain_bottom_view_padding", set_maintain_bottom_view_padding);
   ("minimum", set_minimum);
   ("minimum_padding", set_minimum_padding)].

(** The constructor passes neither [left], [top], [right] nor [bottom] on
    to [ConstrainedControl.__init__]. *)
Definition __init__ (kw : gmap string PyVal) : Result Obj :=
  let base := delete "left" (delete "top" (delete "right" (delete "bottom" kw))) in
  self ← ConstrainedControl.__init__ "safearea" base;
  let self := AdaptiveControl.__init__ self (arg kw "adaptive" VNone) in
  assign_all props kw self.

Definition before_update (self : Obj) : Result Obj :=
  self ← ConstrainedControl.before_update self;
  c ← getfield self "_SafeArea__content";
  v ← visible_of c;
  _ ← py_assert (truthy v) "content must be visible";
  self ← json_from_field "_SafeArea__minimum" "minimum" self;
  json_from_field "_SafeArea__minimum_padding" "minimumPadding" self.

Definition _get_children (self : Obj) : Result (Obj * list PyVal) :=
  c ← getfield self "_SafeArea__content";
  c ← tag "content" c;
  Ok (setfield self "_SafeArea__content" c, [c]).

End WithBuiltins.

End SafeArea.

(** ** AutoComplete *)

(** The dataclass [AutoCompleteSuggestion(key=None, value=None)]. *)
Definition AutoCompleteSuggestion (key value : PyVal) : PyVal :=
  VData ["AutoCompleteSuggestion"] [("key", key); ("value", value)].

Module AutoComplete.

Section WithBuiltins.
Context {builtins : Builtins}.

Definition selected_index (self : Obj) :=
  Control._get_attr self "selectedIndex" VNone "int".

Definition suggestions_max_height (self : Obj) :=
  Control._get_attr self "suggestionsMaxHeight" (VNum 200) "float".

Definition set_suggestions_max_height (self : Obj) (value : PyVal) : Result Obj :=
  c ← (if is_none value then Ok true else py_ge value (VNum 0));
  _ ← py_assert c "suggestions_max_height cannot be negative";
  Ok (Control._set_attr self "suggestionsMaxHeight" value).

Definition suggestions (self : Obj) : Result PyVal :=
  getfield self "_AutoComplete__suggestions".

Definition set_suggestions (self : Obj) (value : PyVal) : Result Obj :=
  Ok (setfield self "_AutoComplete__suggestions" (py_or value (VList []))).

(** [self.__on_select.subscribe(handler)]: the handler is kept with the
    event handler object the constructor created. *)
Definition set_on_select (self : Obj) (handler : PyVal) : Result Obj :=
  _ ← getfield self "_AutoComplete__on_select";
  Ok (setfield self "_AutoComplete__on_select" handler).

Definition props : list (string * (Obj -> PyVal -> Result Obj)) :=
  [("suggestions", set_suggestions);
   ("suggestions_max_height", set_suggestions_max_height);
   ("on_select", set_on_select)].

Definition __init__ (kw : gmap string PyVal) : Result Obj :=
  let self := Control.__init__ "autocomplete" kw in
  let self := setfield self "_AutoComplete__on_select" VNone in
  assign_all props kw self.

Definition before_update (self : Obj) : Result Obj :=
  json_from_field "_AutoComplete__suggestions" "suggestions" self.

(** What [before_update] leaves in the attribute map for the renderer. *)
Definition serialized_suggestions (self : Obj) : option PyVal :=
  attrs self !! "suggestions".

End WithBuiltins.

End AutoComplete.

(** ** Badge *)

Module Badge.

Section WithBuiltins.
Context {builtins : Builtins}.

Definition alignment (self : Obj) := getfield self "_Badge__alignment".
Definition set_alignment := field_setter "_Badge__alignment".
Definition text (self : Obj) := Control._get_attr self "labelText" VNone "string".
Definition set_text := attr_setter "labelText".
Definition content (self : Obj) := getfield self "_Badge__content".
Definition set_content := field_setter "_Badge__content".
Definition offset (self : Obj) := getfield self "_Badge__offset".
Definition set_offset := field_setter "_Badge__offset".
Definition bgcolor (self : Obj) := Control._get_attr self "bgColor" VNone "string".
Definition set_bgcolor := attr_setter "bgColor".
Definition label_visible (self : Obj) :=
  Control._get_attr self "isLabelVisible" (VBool true) "bool".
Definition set_label_visible := attr_setter "isLabelVisible".
Definition large_size (self : Obj) := Control._get_attr self "largeSize" VNone "string".
Definition set_large_size := attr_setter "largeSize".
Definition padding (self : Obj) := getfield self "_Badge__padding".
Definition set_padding := field_setter "_Badge__padding".
Definition small_size (self : Obj) := Control._get_attr self "smallSize" VNone "string".
Definition set_small_size := attr_setter "smallSize".
Definition text_color (self : Obj) := Control._get_attr self "textColor" VNone "string".
Definition set_text_color := attr_setter "textColor".
Definition text_style (self : Obj) := getfield self "_Badge__text_style".
Definition set_text_style := field_setter "_Badge__text_style".

Definition props : list (string * (Obj -> PyVal -> Result Obj)) :=
  [("text", set_text);
   ("content", set_content);
   ("offset", set_offset);
   ("alignment", set_alignment);
   ("bgcolor", set_bgcolor);
   ("label_visible", set_label_visible);
   ("large_size", set_large_size);
   ("padding", set_padding);
   ("small_size", set_small_size);
   ("text_color", set_text_color);
   ("text_style", set_text_style)].

Definition __init__ (kw : gmap string PyVal) : Result Obj :=
  assign_all props kw (Control.__init__ "badge" kw).

Definition before_update (self : Obj) : Result Obj :=
  self ← Control.before_update self;
  self ← json_from_field "_Badge__offset" "offset" self;
  self ← json_from_field "_Badge__alignment" "alignment" self;
  self ← json_from_field "_Badge__padding" "padding" self;
  json_from_field "_Badge__text_style" "textStyle" self.

Definition _get_children (self : Obj) : Result (Obj * list PyVal) :=
  c ← getfield self "_Badge__content";
  if negb (is_none c) then
    c ← tag "content" c;
    Ok (setfield self "_Badge__content" c, [c])
  else Ok (self, []).

End WithBuiltins.

End Badge.

(** ** AppBar *)

Module AppBar.

Section WithBuiltins.
Context {builtins : Builtins}.

Definition leading (self : Obj) := getfield self "_AppBar__leading".
Definition set_leading := field_setter "_AppBar__leading".
Definition leading_width (self : Obj) := Control._get_attr self "leadingWidth" VNone "string".
Definition set_leading_width := attr_setter "leadingWidth".
Definition title_spacing (self : Obj) := Control._get_attr self "titleSpacing" VNone "float".
Definition set_title_spacing := attr_setter "titleSpacing".

Definition toolbar_opacity (self : Obj) :=
  Control._get_attr self "toolbarOpacity" (VNum 1) "float".

(** [assert value is None or (0 >= value >= 1)]: the chained comparison is
    [0 >= value and value >= 1]. *)
Definition set_toolbar_opacity (self : Obj) (value : PyVal) : Result Obj :=
  c ← (if is_none value then Ok true
       else (c1 ← py_ge (VNum 0) value;
             if c1 : bool then py_ge value (VNum 1) else Ok false));
  _ ← py_assert c "toolbar_opacity is out of range (0-1)";
  Ok (Control._set_attr self "toolbarOpacity" value).

Definition shape (self : Obj) := getfield self "_AppBar__shape".
Definition set_shape := field_setter "_AppBar__shape".
Definition title_text_style (self : Obj) := getfield self "_AppBar__title_text_style".
Definition set_title_text_style := field_setter "_AppBar__title_text_style".
Definition toolbar_text_style (self : Obj) := getfield self "_AppBar__toolbar_text_style".
Definition set_toolbar_text_style := field_setter "_AppBar__toolbar_text_style".
Definition automatically_imply_leading (self : Obj) :=
  Control._get_attr self "automaticallyImplyLeading" (VBool true) "bool".
Definition set_automatically_imply_leading := attr_setter "automaticallyImplyLeading".
Definition title (self : Obj) := getfield self "_AppBar__title".
Definition set_title := field_setter "_AppBar__title".
Definition center_title (self : Obj) :=
  Control._get_attr self "centerTitle" (VBool false) "bool".
Definition set_center_title := attr_setter "centerTitle".
Definition toolbar_height (self : Obj) := Control._get_attr self "toolbarHeight" VNone "float".
Definition set_toolbar_height := attr_setter "toolbarHeight".
Definition color (self : Obj) := Control._get_attr self "color" VNone "string".
Definition set_color := attr_setter "color".
Definition bgcolor (self : Obj) := Control._get_attr self "bgcolor" VNone "string".
Definition set_bgcolor := attr_setter "bgcolor".
Definition elevation (self : Obj) := Control._get_attr self "elevation" VNone "float".
Definition set_elevation := attr_setter "elevation".
Definition elevation_on_scroll (self : Obj) :=
  Control._get_attr self "elevationOnScroll" VNone "float".
Definition set_elevation_on_scroll := attr_setter "elevationOnScroll".
Definition shadow_color (self : Obj) := Control._get_attr self "shadowColor" VNone "string".
Definition set_shadow_color := attr_setter "shadowColor".
Definition surface_tint_color (self : Obj) :=
  Control._get_attr self "surfaceTintColor" VNone "string".
Definition set_surface_tint_color := attr_setter "surfaceTintColor".
Definition clip_behavior (self : Obj) := Control._get_attr self "clipBehavior" VNone "string".
Definition set_clip_behavior := attr_setter "clipBehavior".
Definition force_material_transparency (self : Obj) :=
  Control._get_attr self "forceMaterialTransparency" VNone "bool".
Definition set_force_material_transparency := attr_setter "forceMaterialTransparency".
Definition is_secondary (self : Obj) := Control._get_attr self "isSecondary" VNone "bool".
Definition set_is_secondary := attr_setter "isSecondary".
Definition exclude_header_semantics (self : Obj) :=
  Control._get_attr self "excludeHeaderSemantics" VNone "bool".
Definition set_exclude_header_semantics := attr_setter "excludeHeaderSemantics".
Definition actions (self : Obj) := getfield self "_AppBar__actions".
Definition set_actions := field_setter "_AppBar__actions".

Definition props : list (string * (Obj -> PyVal -> Result Obj)) :=
  [("leading", set_leading);
   ("leading_width", set_leading_width);
   ("automatically_imply_leading", set_automatically_imply_leading);
   ("title", set_title);
   ("center_title", set_center_title);
   ("toolbar_height", set_toolbar_height);
   ("color", set_color);
   ("bgcolor", set_bgcolor);
   ("elevation", set_elevation);
   ("actions", set_actions);
   ("elevation_on_scroll", set_elevation_on_scroll);
   ("shadow_color", set_shadow_color);
   ("surface_tint_color", set_surface_tint_color);
   ("clip_behavior", set_clip_behavior);
   ("force_material_transparency", set_force_material_transparency);
   ("is_secondary", set_is_secondary);
   ("title_spacing", set_title_spacing);
   ("exclude_header_semantics", set_exclude_header_semantics);
   ("toolbar_opacity", set_toolbar_opacity);
   ("title_text_style", set_title_text_style);
   ("toolbar_text_style", set_toolbar_text_style);
   ("shape", set_shape)].

Definition __init__ (kw : gmap string PyVal) : Result Obj :=
  let self := Control.__init__ "appbar" kw in
  let self := AdaptiveControl.__init__ self (arg kw "adaptive" VNone) in
  assign_all props kw self.

Definition before_update (self : Obj) : Result Obj :=
  self ← Control.before_update self;
  self ← json_from_field_if "TextStyle" "_AppBar__title_text_style" "titleTextStyle" self;
  self ← json_from_field_if "TextStyle" "_AppBar__toolbar_text_style" "toolbarTextStyle" self;
  json_from_field_if "OutlinedBorder" "_AppBar__shape" "shape" self.

Definition _get_children (self : Obj) : Result (Obj * list PyVal) :=
  let children : list PyVal := [] in
  l ← getfield self "_AppBar__leading";
  '(self, children) ←
    (if truthy l then
       l ← tag "leading" l;
       Ok (setfield self "_AppBar__leading" l, children ++ [l])
     else Ok (self, children));
  t ← getfield self "_AppBar__title";
  '(self, children) ←
    (if truthy t then
       t ← tag "title" t;
       Ok (setfield self "_AppBar__title" t, children ++ [t])
     else Ok (self, children));
  a ← getfield self "_AppBar__actions";
  a ← py_iter a;
  a ← mapM (tag "action") a;
  Ok (setfield self "_AppBar__actions" (VList a), children ++ a).

End WithBuiltins.

End AppBar.

(** ** AlertDialog *)

Module AlertDialog.

Section WithBuiltins.
Context {builtins : Builtins}.

Definition open (self : Obj) := Control._get_attr self "open" (VBool false) "bool".
Definition set_open := attr_setter "open".
Definition bgcolor (self : Obj) := Control._get_attr self "bgcolor" VNone "string".
Definition set_bgcolor := attr_setter "bgcolor".
Definition shadow_color (self : Obj) := Control._get_attr self "shadowColor" VNone "string".
Definition set_shadow_color := attr_setter "shadowColor".
Definition surface_tint_color (self : Obj) :=
  Control._get_attr self "surfaceTintColor" VNone "string".
Definition set_surface_tint_color := attr_setter "surfaceTintColor".
Definition icon_color (self : Obj) := Control._get_attr self "iconColor" VNone "string".
Definition set_icon_color := attr_setter "iconColor".
Definition elevation (self : Obj) := Control._get_attr self "elevation" VNone "float".
Definition set_elevation := attr_setter "elevation".
Definition actions_overflow_button_spacing (self : Obj) :=
  Control._get_attr self "actionsOverflowButtonSpacing" VNone "float".
Definition set_actions_overflow_button_spacing :=
  attr_setter "actionsOverflowButtonSpacing".
Definition modal (self : Obj) := Control._get_attr self "modal" (VBool false) "bool".
Definition set_modal := attr_setter "modal".
Definition title (self : Obj) := Control._get_attr self "title" VNone "string".
Definition set_title := attr_setter "title".
Definition title_padding (self : Obj) := Control._get_attr self "titlePadding" VNone "padding".
Definition set_title_padding := attr_setter "titlePadding".
Definition content (self : Obj) := Control._get_attr self "content" VNone "string".
Definition set_content := attr_setter "content".
Definition content_padding (self : Obj) :=
  Control._get_attr self "contentPadding" VNone "padding".
Definition set_content_padding := attr_setter "contentPadding".
Definition actions (self : Obj) := Control._get_attr self "actions" VNone "string".
Definition set_actions := attr_setter "actions".
Definition actions_padding (self : Obj) :=
  Control._get_attr self "actionsPadding" VNone "padding".
Definition set_actions_padding := attr_setter "actionsPadding".
Definition actions_alignment (self : Obj) :=
  Control._get_attr self "actionsAlignment" VNone "string".
Definition set_actions_alignment := attr_setter "actionsAlignment".
Definition shape (self : Obj) := Control._get_attr self "shape" VNone "string".
Definition set_shape := attr_setter "shape".
Definition inset_padding (self : Obj) := Control._get_attr self "insetPadding" VNone "padding".
Definition set_inset_padding := attr_setter "insetPadding".
Definition icon_padding (self : Obj) := Control._get_attr self "iconPadding" VNone "padding".
Definition set_icon_padding := attr_setter "iconPadding".
Definition action_button_padding (self : Obj) :=
  Control._get_attr self "actionButtonPadding" VNone "padding".
Definition set_action_button_padding := attr_setter "actionButtonPadding".
Definition alignment (self : Obj) := Control._get_attr self "alignment" VNone "string".
Definition set_alignment := attr_setter "alignment".
Definition content_text_style (self : Obj) :=
  Control._get_attr self "contentTextStyle" VNone "string".
Definition set_content_text_style := attr_setter "contentTextStyle".
Definition title_text_style (self : Obj) :=
  Control._get_attr self "titleTextStyle" VNone "string".
Definition set_title_text_style := attr_setter "titleTextStyle".
Definition clip_behavior (self : Obj) := Control._get_attr self "clipBehavior" VNone "string".
Definition set_clip_behavior := attr_setter "clipBehavior".
Definition semantics_label (self : Obj) :=
  Control._get_attr self "semanticsLabel" VNone "string".
Definition set_semantics_label := attr_setter "semanticsLabel".
Definition on_dismiss (self : Obj) := Control._get_attr self "onDismiss" VNone "string".
Definition set_on_dismiss := attr_setter "onDismiss".

(** The class declares neither an [icon] nor a [scrollable] property:
    [self.icon = icon] and [self.scrollable = scrollable] in the
    constructor assign plain instance fields. *)
Definition set_icon := field_setter "icon".
Definition set_scrollable := field_setter "scrollable".

(** The assignments of the constructor, in source order; [open] and
    [modal] default to [False], every other argument to [None]. *)
Definition props : list (string * (Obj -> PyVal -> Result Obj)) :=
  [("open", set_open);
   ("bgcolor", set_bgcolor);
   ("elevation", set_elevation);
   ("icon", set_icon);
   ("modal", set_modal);
   ("title", set_title);
   ("title_padding", set_title_padding);
   ("content", set_content);
   ("content_padding", set_content_padding);
   ("actions", set_actions);
   ("actions_padding", set_actions_padding);
   ("actions_alignment", set_actions_alignment);
   ("shape", set_shape);
   ("inset_padding", set_inset_padding);
   ("semantics_label", set_semantics_label);
   ("on_dismiss", set_on_dismiss);
   ("clip_behavior", set_clip_behavior);
   ("action_button_padding", set_action_button_padding);
   ("shadow_color", set_shadow_color);
   ("surface_tint_color", set_surface_tint_color);
   ("icon_padding", set_icon_padding);
   ("icon_color", set_icon_color);
   ("scrollable", set_scrollable);
   ("actions_overflow_button_spacing", set_actions_overflow_button_spacing);
   ("alignment", set_alignment);
   ("content_text_style", set_content_text_style);
   ("title_text_style", set_title_text_style)].

Definition __init__ (kw : gmap string PyVal) : Result Obj :=
  let kw := <["open" := arg kw "open" (VBool false)]>
            (<["modal" := arg kw "modal" (VBool false)]> kw) in
  let self := Control.__init__ "alertdialog" kw in
  let self := AdaptiveControl.__init__ self (arg kw "adaptive" VNone) in
  assign_all props kw self.

Definition before_update (self : Obj) : Result Obj :=
  self ← Control.before_update self;
  t ← getfield self "_AlertDialog__title";
  c ← py_or_else t
        (c ← getfield self "_AlertDialog__content";
         py_or_else c (getfield self "_AlertDialog__actions"));
  _ ← py_assert (truthy c)
        "AlertDialog has nothing to display. Provide at minimum one of the following: title, content, actions";
  self ← json_from_field "_AlertDialog__actions_padding" "actionsPadding" self;
  self ← json_from_field "_AlertDialog__content_padding" "contentPadding" self;
  self ← json_from_field "_AlertDialog__title_padding" "titlePadding" self;
  self ← json_from_field "_AlertDialog__shape" "shape" self;
  self ← json_from_field "_AlertDialog__inset_padding" "insetPadding" self;
  self ← json_from_field "_AlertDialog__icon_padding" "iconPadding" self;
  self ← json_from_field "_AlertDialog__action_button_padding" "actionButtonPadding" self;
  self ← json_from_field "_AlertDialog__alignment" "alignment" self;
  self ← json_from_field_if "TextStyle" "_AlertDialog__content_text_style" "contentTextStyle" self;
  json_from_field_if "TextStyle" "_AlertDialog__title_text_style" "titleTextStyle" self.

Definition _get_children (self : Obj) : Result (Obj * list PyVal) :=
  let children : list PyVal := [] in
  t ← getfield self "_AlertDialog__title";
  '(self, children) ←
    (if truthy t then
       t ← tag "title" t;
       Ok (setfield self "_AlertDialog__title" t, children ++ [t])
     else Ok (self, children));
  i ← getfield self "_AlertDialog__icon";
  '(self, children) ←
    (if truthy i then
       i ← tag "icon" i;
       Ok (setfield self "_AlertDialog__icon" i, children ++ [i])
     else Ok (self, children));
  c ← getfield self "_AlertDialog__content";
  '(self, children) ←
    (if truthy c then
       c ← tag "content" c;
       Ok (setfield self "_AlertDialog__content" c, children ++ [c])
     else Ok (self, children));
  a ← getfield self "_AlertDialog__actions";
  a ← py_iter a;
  a ← mapM (tag "action") a;
  Ok (setfield self "_AlertDialog__actions" (VList a), children ++ a).

End WithBuiltins.

End AlertDialog.

(** ** Card *)

(** The setters of [clip_behavior] and [variant] call
    [Control._set_enum_attr], which is neither among the sources nor
    described by the specification; these two properties are left out. *)
Module Card.

Section WithBuiltins.
Context {builtins : Builtins}.

Definition margin (self : Obj) := getfield self "_Card__margin".
Definition set_margin := field_setter "_Card__margin".
Definition elevation (self : Obj) := Control._get_attr self "elevation" VNone "string".
Definition set_elevation := attr_setter "elevation".
Definition color (self : Obj) := Control._get_attr self "color" VNone "string".
Definition set_color := attr_setter "color".
Definition shadow_color (self : Obj) := Control._get_attr self "shadowColor" VNone "string".
Definition set_shadow_color := attr_setter "shadowColor".
Definition surface_tint_color (self : Obj) :=
  Control._get_attr self "surfaceTintColor" VNone "string".
Definition set_surface_tint_color := attr_setter "surfaceTintColor".
Definition shape (self : Obj) := getfield self "_Card__shape".
Definition set_shape := field_setter "_Card__shape".
Definition content (self : Obj) := getfield self "_Card__content".
Definition set_content := field_setter "_Card__content".
Definition is_semantic_container (self : Obj) :=
  Control._get_attr self "isSemanticContainer" (VBool true) "bool".
Definition set_is_semantic_container := attr_setter "isSemanticContainer".
Definition show_border_on_foreground (self : Obj) :=
  Control._get_attr self "showBorderOnForeground" (VBool true) "bool".
Definition set_show_border_on_foreground := attr_setter "showBorderOnForeground".

End WithBuiltins.

End Card.

(** ** BottomAppBar *)

(** The setters of [shape] and [clip_behavior] call
    [Control._set_enum_attr]; these two properties are left out. *)
Module BottomAppBar.

Section WithBuiltins.
Context {builtins : Builtins}.

Definition content (self : Obj) := getfield self "_BottomAppBar__content".
Definition set_content := field_setter "_BottomAppBar__content".
Definition surface_tint_color (self : Obj) :=
  Control._get_attr self "surfaceTintColor" VNone "string".
Definition set_surface_tint_color := attr_setter "surfaceTintColor".
Definition bgcolor (self : Obj) := Control._get_attr self "bgcolor" VNone "string".
Definition set_bgcolor := attr_setter "bgcolor".
Definition shadow_color (self : Obj) := Control._get_attr self "shadowColor" VNone "string".
Definition set_shadow_color := attr_setter "shadowColor".
Definition padding (self : Obj) := getfield self "_BottomAppBar__padding".
Definition set_padding := field_setter "_BottomAppBar__padding".
Definition notch_margin (self : Obj) := Control._get_attr self "notchMargin" VNone "string".
Definition set_notch_margin := attr_setter "notchMargin".

Definition elevation (self : Obj) := Control._get_attr self "elevation" VNone "string".

(** [assert value is None or value >= 0, "elevation cannot be negative"] *)
Definition set_elevation (self : Obj) (value : PyVal) : Result Obj :=
  c ← (if is_none value then Ok true else py_ge value (VNum 0));
  _ ← py_assert c "elevation cannot be negative";
  Ok (Control._set_attr self "elevation" value).

End WithBuiltins.

End BottomAppBar.

(** ** CupertinoTextField *)

(** A member of the [Enum] class [cls], with the value it stands for. *)
Definition enum_member (cls : string) (value : PyVal) : PyVal :=
  VData [cls; "Enum"] [("value", value)].

Fixpoint assoc (name : string) (kw : list (string * PyVal)) : option PyVal :=
  match kw with
  | [] => None
  | (n, v) :: kw' => if String.eqb n name then Some v else assoc name kw'
  end.

(** [v.value] *)
Definition dot_value (v : PyVal) : Result PyVal :=
  match v with
  | VData _ kw =>
      match assoc "value" kw with
      | Some x => Ok x
      | None => Raise (AttributeError "value")
      end
  | _ => Raise (AttributeError "value")
  end.

(** [value.value if isinstance(value, C) else value] *)
Definition value_if_member (C : string) (value : PyVal) : Result PyVal :=
  if isinstance value C then dot_value value else Ok value.

(** The properties the class declares itself; what it inherits from
    [TextField], which is not among the sources, is left out. *)
Module CupertinoTextField.

Section WithBuiltins.
Context {builtins : Builtins}.

Definition placeholder_text (self : Obj) :=
  Control._get_attr self "placeholderText" VNone "string".
Definition set_placeholder_text := attr_setter "placeholderText".

(** The getter returns [self.__hint_style], the setter assigns
    [self.__placeholder_style]. *)
Definition placeholder_style (self : Obj) :=
  getfield self "_CupertinoTextField__hint_style".
Definition set_placeholder_style := field_setter "_CupertinoTextField__placeholder_style".

Definition gradient (self : Obj) := getfield self "_CupertinoTextField__gradient".
Definition set_gradient := field_setter "_CupertinoTextField__gradient".

Definition blend_mode (self : Obj) := getfield self "_CupertinoTextField__blend_mode".
Definition set_blend_mode (self : Obj) (value : PyVal) : Result Obj :=
  let self := setfield self "_CupertinoTextField__blend_mode" value in
  v ← value_if_member "BlendMode" value;
  Ok (Control._set_attr self "blendMode" v).

Definition shadow (self : Obj) := getfield self "_CupertinoTextField__shadow".
Definition set_shadow (self : Obj) (value : PyVal) : Result Obj :=
  Ok (setfield self "_CupertinoTextField__shadow"
        (if negb (is_none value) then value else VList [])).

Definition suffix_visibility_mode (self : Obj) :=
  getfield self "_CupertinoTextField__suffix_visibility_mode".
Definition set_suffix_visibility_mode (self : Obj) (value : PyVal) : Result Obj :=
  let self := setfield self "_CupertinoTextField__suffix_visibility_mode" value in
  v ← value_if_member "VisibilityMode" value;
  Ok (Control._set_attr self "suffixVisibilityMode" v).

Definition prefix_visibility_mode (self : Obj) :=
  getfield self "_CupertinoTextField__prefix_visibility_mode".
Definition set_prefix_visibility_mode (self : Obj) (value : PyVal) : Result Obj :=
  let self := setfield self "_CupertinoTextField__prefix_visibility_mode" value in
  v ← value_if_member "VisibilityMode" value;
  Ok (Control._set_attr self "prefixVisibilityMode" v).

End WithBuiltins.

End CupertinoTextField.

(** ** The properties of the control classes, by the form of their code *)

(** The tables below list every property that the classes above declare
    with a getter and a setter, but for: the event handlers
    ([ConstrainedControl.on_animation_end], [AutoComplete.on_select]),
    which are read through [Control._get_event_handler]; the four
    properties set through [Control._set_enum_attr] ([Card.clip_behavior],
    [Card.variant], [BottomAppBar.shape], [BottomAppBar.clip_behavior]);
    [CupertinoTextField.placeholder_style], whose getter reads another
    field than its setter assigns; and [AutoComplete.suggestions] and
    [CupertinoTextField.shadow], whose setters replace [None] by the empty
    list and which the properties below treat on their own. *)

Definition Setter : Type := Obj -> PyVal -> Result Obj.
Definition Getter : Type := Obj -> Result PyVal.

Section PropertyTables.
Context {builtins : Builtins}.

(** Setter [self.__x = value], getter [return self.__x]. *)
Definition field_properties : list (Setter * Getter) :=
  [(ConstrainedControl.set_rotate, ConstrainedControl.rotate);
   (ConstrainedControl.set_scale, ConstrainedControl.scale);
   (ConstrainedControl.set_offset, ConstrainedControl.offset);
   (ConstrainedControl.set_animate_opacity, ConstrainedControl.animate_opacity);
   (ConstrainedControl.set_animate_size, ConstrainedControl.animate_size);
   (ConstrainedControl.set_animate_position, ConstrainedControl.animate_position);
   (ConstrainedControl.set_animate_rotation, ConstrainedControl.animate_rotation);
   (ConstrainedControl.set_animate_scale, ConstrainedControl.animate_scale);
   (ConstrainedControl.set_animate_offset, ConstrainedControl.animate_offset);
   (SafeArea.set_content, SafeArea.content);
   (SafeArea.set_minimum, SafeArea.minimum);
   (SafeArea.set_minimum_padding, SafeArea.minimum_padding);
   (Badge.set_alignment, Badge.alignment);
   (Badge.set_content, Badge.content);
   (Badge.set_offset, Badge.offset);
   (Badge.set_padding, Badge.padding);
   (Badge.set_text_style, Badge.text_style);
   (AppBar.set_leading, AppBar.leading);
   (AppBar.set_shape, AppBar.shape);
   (AppBar.set_title_text_style, AppBar.title_text_style);
   (AppBar.set_toolbar_text_style, AppBar.toolbar_text_style);
   (AppBar.set_title, AppBar.title);
   (AppBar.set_actions, AppBar.actions);
   (Card.set_margin, Card.margin);
   (Card.set_shape, Card.shape);
   (Card.set_content, Card.content);
   (BottomAppBar.set_content, BottomAppBar.content);
   (BottomAppBar.set_padding, BottomAppBar.padding);
   (CupertinoTextField.set_gradient, CupertinoTextField.gradient)].

(** Setter [self._set_attr(key, value)], getter [self._get_attr(key)]
    with no default and with no data type or the data type "padding". *)
Definition attr_properties : list (Setter * Getter) :=
  [(ConstrainedControl.set_key, ConstrainedControl.key);
   (ConstrainedControl.set_width, ConstrainedControl.width);
   (ConstrainedControl.set_height, ConstrainedControl.height);
   (ConstrainedControl.set_left, ConstrainedControl.left);
   (ConstrainedControl.set_top, ConstrainedControl.top);
   (ConstrainedControl.set_right, ConstrainedControl.right);
   (ConstrainedControl.set_bottom, ConstrainedControl.bottom);
   (ConstrainedControl.set_aspect_ratio, ConstrainedControl.aspect_ratio);
   (Badge.set_text, Badge.text);
   (Badge.set_bgcolor, Badge.bgcolor);
   (Badge.set_large_size, Badge.large_size);
   (Badge.set_small_size, Badge.small_size);
   (Badge.set_text_color, Badge.text_color);
   (AppBar.set_leading_width, AppBar.leading_width);
   (AppBar.set_color, AppBar.color);
   (AppBar.set_bgcolor, AppBar.bgcolor);
   (AppBar.set_shadow_color, AppBar.shadow_color);
   (AppBar.set_surface_tint_color, AppBar.surface_tint_color);
   (AppBar.set_clip_behavior, AppBar.clip_behavior);
   (AlertDialog.set_bgcolor, AlertDialog.bgcolor);
   (AlertDialog.set_shadow_color, AlertDialog.shadow_color);
   (AlertDialog.set_surface_tint_color, AlertDialog.surface_tint_color);
   (AlertDialog.set_icon_color, AlertDialog.icon_color);
   (AlertDialog.set_title, AlertDialog.title);
   (AlertDialog.set_title_padding, AlertDialog.title_padding);
   (AlertDialog.set_content, AlertDialog.content);
   (AlertDialog.set_content_padding, AlertDialog.content_padding);
   (AlertDialog.set_actions, AlertDialog.actions);
   (AlertDialog.set_actions_padding, AlertDialog.actions_padding);
   (AlertDialog.set_actions_alignment, AlertDialog.actions_alignment);
   (AlertDialog.set_shape, AlertDialog.shape);
   (AlertDialog.set_inset_padding, AlertDialog.inset_padding);
   (AlertDialog.set_icon_padding, AlertDialog.icon_padding);
   (AlertDialog.set_action_button_padding, AlertDialog.action_button_padding);
   (AlertDialog.set_alignment, AlertDialog.alignment);
   (AlertDialog.set_content_text_style, AlertDialog.content_text_style);
   (AlertDialog.set_title_text_style, AlertDialog.title_text_style);
   (AlertDialog.set_clip_behavior, AlertDialog.clip_behavior);
   (AlertDialog.set_semantics_label, AlertDialog.semantics_label);
   (AlertDialog.set_on_dismiss, AlertDialog.on_dismiss);
   (Card.set_elevation, Card.elevation);
   (Card.set_color, Card.color);
   (Card.set_shadow_color, Card.shadow_color);
   (Card.set_surface_tint_color, Card.surface_tint_color);
   (BottomAppBar.set_surface_tint_color, BottomAppBar.surface_tint_color);
   (BottomAppBar.set_bgcolor, BottomAppBar.bgcolor);
   (BottomAppBar.set_shadow_color, BottomAppBar.shadow_color);
   (BottomAppBar.set_notch_margin, BottomAppBar.notch_margin);
   (CupertinoTextField.set_placeholder_text, CupertinoTextField.placeholder_text)].

(** Setter [self._set_attr(key, value)], getter
    [self._get_attr(key, data_type=t, def_value=d)] with the data type
    bool or float, with the default and the data type the getter
    declares ([None] when it declares no default). *)
Definition typed_properties : list (Setter * Getter * PyVal * string) :=
  [(SafeArea.set_left, SafeArea.left, VBool true, "bool");
   (SafeArea.set_top, SafeArea.top, VBool true, "bool");
   (SafeArea.set_right, SafeArea.right, VBool true, "bool");
   (SafeArea.set_bottom, SafeArea.bottom, VBool true, "bool");
   (SafeArea.set_maintain_bottom_view_padding, SafeArea.maintain_bottom_view_padding,
    VBool false, "bool");
   (Badge.set_label_visible, Badge.label_visible, VBool true, "bool");
   (AppBar.set_title_spacing, AppBar.title_spacing, VNone, "float");
   (AppBar.set_automatically_imply_leading, AppBar.automatically_imply_leading,
    VBool true, "bool");
   (AppBar.set_center_title, AppBar.center_title, VBool false, "bool");
   (AppBar.set_toolbar_height, AppBar.toolbar_height, VNone, "float");
   (AppBar.set_elevation, AppBar.elevation, VNone, "float");
   (AppBar.set_elevation_on_scroll, AppBar.elevation_on_scroll, VNone, "float");
   (AppBar.set_force_material_transparency, AppBar.force_material_transparency,
    VNone, "bool");
   (AppBar.set_is_secondary, AppBar.is_secondary, VNone, "bool");
   (AppBar.set_exclude_header_semantics, AppBar.exclude_header_semantics, VNone, "bool");
   (AlertDialog.set_open, AlertDialog.open, VBool false, "bool");
   (AlertDialog.set_elevation, AlertDialog.elevation, VNone, "float");
   (AlertDialog.set_actions_overflow_button_spacing,
    AlertDialog.actions_overflow_button_spacing, VNone, "float");
   (AlertDialog.set_modal, AlertDialog.modal, VBool false, "bool");
   (Card.set_is_semantic_container, Card.is_semantic_container, VBool true, "bool");
   (Card.set_show_border_on_foreground, Card.show_border_on_foreground,
    VBool true, "bool")].

(** Setter [assert ...; self._set_attr(key, value)], with the default and
    the data type of the getter. *)
Definition checked_properties : list (Setter * Getter * PyVal * string) :=
  [(AppBar.set_toolbar_opacity, AppBar.toolbar_opacity, VNum 1, "float");
   (AutoComplete.set_suggestions_max_height, AutoComplete.suggestions_max_height,
    VNum 200, "float");
   (BottomAppBar.set_elevation, BottomAppBar.elevation, VNone, "string")].

(** Setter [self.__x = value] followed by
    [self._set_attr(key, value.value if isinstance(value, C) else value)],
    getter [return self.__x], with the enum class [C]. *)
Definition mirrored_properties : list (Setter * Getter * string) :=
  [(CupertinoTextField.set_blend_mode, CupertinoTextField.blend_mode, "BlendMode");
   (CupertinoTextField.set_suffix_visibility_mode,
    CupertinoTextField.suffix_visibility_mode, "VisibilityMode");
   (CupertinoTextField.set_prefix_visibility_mode,
    CupertinoTextField.prefix_visibility_mode, "VisibilityMode")].

End PropertyTables.

(** The data types for which [get_attr] converts text. *)
Definition converted_types : list string := ["bool"; "float"; "int"].

(** ** Vocabulary of the properties *)

(** The private fields named in [fs] have all been assigned. *)
Definition has_fields (fs : list string) (self : Obj) : bool :=
  forallb (fun f => match dict self !! f with Some _ => true | None => false end) fs.

(** An attribute entry of declared type [Optional[bool]]. *)
Definition is_optional_bool (x : option PyVal) : bool :=
  match x with
  | None | Some (VBool _) => true
  | Some _ => false
  end.

(** A value of the declared type [Optional[List[...]]]. *)
Definition of_optional_list (v : option (list PyVal)) : PyVal :=
  match v with
  | None => VNone
  | Some l => VList l
  end.

(** A value of the declared type [Optional[Control]]. *)
Definition of_optional_control (c : option Obj) : PyVal :=
  match c with
  | None => VNone
  | Some o => VObj o
  end.

(** A child after it was given its role. *)
Definition tagged (role : string) (child : Obj) : Obj :=
  Control._set_attr_internal child "n" (VStr role).

(** Setting a property to [v] and reading it back yields [v]. *)
Definition round_trips (set : Obj -> PyVal -> Result Obj) (get : Obj -> Result PyVal)
           (self : Obj) (v : PyVal) : Prop :=
  (o ← set self v; get o) = Ok v.

(** The blocking and the awaited form of an operation, compared on one
    transport: same requests in the same order, same outcome, and each
    form uses its own kind of call only. *)
Definition same_remote_behaviour {A}
  (transport : string * bool * PyVal -> PyVal) (blocking awaited : Remote A) : Prop :=
  let '(log_b, out_b) := run transport blocking in
  let '(log_a, out_a) := run transport awaited in
  request <$> log_b = request <$> log_a /\
  out_b = out_a /\
  Forall (fun c => call_kind c = Blocking) log_b /\
  Forall (fun c => call_kind c = Awaited) log_a.

(** The suggestion that has neither a key nor a value. *)
Definition unset_suggestion : PyVal := AutoCompleteSuggestion VNone VNone.

(** The list that the serialized suggestions attribute encodes. *)
Definition serialized_list (self : Obj) : option (list PyVal) :=
  match AutoComplete.serialized_suggestions self with
  | Some (VJson (VList l)) => Some l
  | _ => None
  end.

(** The private fields read by the [before_update] hooks. *)
Definition ConstrainedControl_fields : list string :=
  ["_ConstrainedControl__rotate"; "_ConstrainedControl__scale";
   "_ConstrainedControl__offset"; "_ConstrainedControl__animate_opacity";
   "_ConstrainedControl__animate_size"; "_ConstrainedControl__animate_position";
   "_ConstrainedControl__animate_rotation"; "_ConstrainedControl__animate_scale";
   "_ConstrainedControl__animate_offset"].

Definition SafeArea_fields : list string :=
  ConstrainedControl_fields ++ ["_SafeArea__minimum"; "_SafeArea__minimum_padding"].

Definition AppBar_fields : list string :=
  ["_AppBar__title_text_style"; "_AppBar__toolbar_text_style"; "_AppBar__shape"].

Definition Badge_fields : list string :=
  ["_Badge__offset"; "_Badge__alignment"; "_Badge__padding"; "_Badge__text_style"].

(** ** Sample objects *)

(** [Text("Hello")] *)
Definition sample_text : Obj := mkObj "text" {["value" := VStr "Hello"]} ∅.

(** [TextStyle(size=20)] *)
Definition sample_text_style : PyVal := VData ["TextStyle"] [("size", VNum 20)].

(** The object a constructor built, when it did not raise. *)
Definition built (r : Result Obj) : Obj :=
  match r with
  | Ok o => o
  | Raise _ => mkObj "" ∅ ∅
  end.

(** [SafeArea(content=Text("Hello"))] *)
Definition sample_safe_area : Obj :=
  built (SafeArea.__init__ {["content" := VObj sample_text]}).

(** [AppBar()] and [Badge()] *)
Definition sample_app_bar : Obj := built (AppBar.__init__ ∅).
Definition sample_badge : Obj := built (Badge.__init__ ∅).

(** Conversions for the sample runs.  No sample holds text under a getter
    that declares the float or int data type, so no run reaches them. *)
Definition sample_builtins : Builtins :=
  {| py_float _ := Raise (ValueError "could not convert string to float");
     py_int _ := Raise (ValueError "invalid literal for int()") |}.

(** * Properties *)

Section Properties.

(** The conversions of the language: any. *)
Context {builtins : Builtins}.

(** ** Basic facts about objects and the result type *)

Lemma setfield_same (self : Obj) (name : string) (v : PyVal) :
  dict self !! name = Some v -> setfield self name v = self.
Proof.
  intros H. destruct self as [n a d]. unfold setfield. simpl in *.
  f_equal. by apply insert_id.
Qed.

Lemma getfield_Some (self : Obj) (name : string) (v : PyVal) :
  dict self !! name = Some v -> getfield self name = Ok v.
Proof. intros H. unfold getfield. by rewrite H. Qed.

Lemma getfield_None (self : Obj) (name : string) :
  dict self !! name = None -> getfield self name = Raise (AttributeError name).
Proof. intros H. unfold getfield. by rewrite H. Qed.

Lemma getfield_setfield (self : Obj) (name : string) (v : PyVal) :
  getfield (setfield self name v) name = Ok v.
Proof. unfold getfield, setfield. simpl. by rewrite lookup_insert_eq. Qed.

Lemma getfield_setfield_ne (self : Obj) (f g : string) (v : PyVal) :
  f ≠ g -> getfield (setfield self f v) g = getfield self g.
Proof. intros H. unfold getfield, setfield. simpl. by rewrite lookup_insert_ne. Qed.

Lemma str_eq_false (s : string) (v : PyVal) :
  v ≠ VStr s -> str_eq s v = false.
Proof.
  intros H. destruct v; simpl; try reflexivity.
  apply String.eqb_neq. congruence.
Qed.

(** ** Flashlight *)

Lemma toggle_state_unchanged (self : Obj) (sr v : PyVal) (on : bool) :
  dict self !! "turned_on" = Some v ->
  sr ≠ VStr "1" ->
  Flashlight._toggle_state self sr on = Ok (self, v).
Proof.
  intros Hv Hsr. unfold Flashlight._toggle_state.
  rewrite (str_eq_false _ _ Hsr). rewrite (getfield_Some _ _ _ Hv). simpl.
  rewrite getfield_setfield. simpl. by rewrite (setfield_same _ _ _ Hv).
Qed.

Section FlashlightCalls.

(** The transport the methods run against, and the timeout they are given. *)
Variable transport : string * bool * PyVal -> PyVal.
Variable wait_timeout : PyVal.

Lemma one_call_unchanged (self : Obj) (flag : PyVal) (k : CallKind) (on : bool) :
  dict self !! "turned_on" = Some flag ->
  (forall rq, transport rq ≠ VStr "1") ->
  snd (run transport
         (Invoke (mkCall k (if on then "on" else "off") true wait_timeout)
                 (fun sr => Done (Flashlight._toggle_state self sr on))))
  = Ok (self, flag).
Proof.
  intros Hflag Hsr. simpl.
  apply toggle_state_unchanged; [exact Hflag | apply Hsr].
Qed.

(** C6: when the transport yields anything but the text "1" (also nothing
    at all), each of turn_on, turn_off, toggle and their awaited variants
    leaves the object, and so its turned_on flag, as it was and returns
    the flag's unchanged value. *)
Theorem flashlight_state_unchanged (self : Obj) (flag : PyVal) :
  dict self !! "turned_on" = Some flag ->
  (forall rq, transport rq ≠ VStr "1") ->
  Forall (fun m => snd (run transport (m self wait_timeout)) = Ok (self, flag))
    [Flashlight.turn_on; Flashlight.turn_on_async;
     Flashlight.turn_off; Flashlight.turn_off_async;
     Flashlight.toggle; Flashlight.toggle_async].
Proof.
  intros Hflag Hsr.
  pose proof (fun k on => one_call_unchanged self flag k on Hflag Hsr) as Hcall.
  repeat constructor.
  - apply (Hcall Blocking true).
  - apply (Hcall Awaited true).
  - apply (Hcall Blocking false).
  - apply (Hcall Awaited false).
  - unfold Flashlight.toggle. rewrite (getfield_Some _ _ _ Hflag).
    destruct (truthy flag); [apply (Hcall Blocking false) | apply (Hcall Blocking true)].
  - unfold Flashlight.toggle_async. rewrite (getfield_Some _ _ _ Hflag).
    destruct (truthy flag); [apply (Hcall Awaited false) | apply (Hcall Awaited true)].
Qed.

(** C7: for turn_on, turn_off and toggle, the blocking and the awaited
    variant issue the same remote request (method "on" or "off",
    wait_for_result=True, the caller's wait_timeout) and, on the same
    transport answer, make the same turned_on transition and return the
    same value. *)
Theorem flashlight_blocking_awaited_agree (self : Obj) :
  same_remote_behaviour transport
    (Flashlight.turn_on self wait_timeout) (Flashlight.turn_on_async self wait_timeout) /\
  same_remote_behaviour transport
    (Flashlight.turn_off self wait_timeout) (Flashlight.turn_off_async self wait_timeout) /\
  same_remote_behaviour transport
    (Flashlight.toggle self wait_timeout) (Flashlight.toggle_async self wait_timeout) /\
  fst (run transport (Flashlight.turn_on self wait_timeout))
    = [mkCall Blocking "on" true wait_timeout] /\
  fst (run transport (Flashlight.turn_off self wait_timeout))
    = [mkCall Blocking "off" true wait_timeout].
Proof.
  assert (Hon : same_remote_behaviour transport
    (Flashlight.turn_on self wait_timeout) (Flashlight.turn_on_async self wait_timeout)).
  { unfold same_remote_behaviour. simpl. repeat split; repeat constructor. }
  assert (Hoff : same_remote_behaviour transport
    (Flashlight.turn_off self wait_timeout) (Flashlight.turn_off_async self wait_timeout)).
  { unfold same_remote_behaviour. simpl. repeat split; repeat constructor. }
  split; [exact Hon |]. split; [exact Hoff |]. split; [| split; reflexivity].
  unfold Flashlight.toggle, Flashlight.toggle_async.
  destruct (getfield self "turned_on") as [t|e].
  - destruct (truthy t); assumption.
  - unfold same_remote_behaviour. simpl. repeat split; constructor.
Qed.

End FlashlightCalls.

Lemma flashlight_state_unchanged_witness :
  dict (Flashlight.__init__ ∅) !! "turned_on" = Some (VBool false) /\
  Forall (fun m => snd (run (fun _ => VStr "") (m (Flashlight.__init__ ∅) (VNum 5)))
                   = Ok (Flashlight.__init__ ∅, VBool false))
    [Flashlight.turn_on; Flashlight.turn_on_async;
     Flashlight.turn_off; Flashlight.turn_off_async;
     Flashlight.toggle; Flashlight.toggle_async].
Proof.
  split; [reflexivity |].
  apply (flashlight_state_unchanged (fun _ => VStr "") (VNum 5)
           (Flashlight.__init__ ∅) (VBool false)).
  - reflexivity.
  - intros rq. discriminate.
Defined.

(** ** AppBar.toolbar_opacity *)

Lemma toolbar_opacity_rejects_every_number (self : Obj) (q : Q) :
  AppBar.set_toolbar_opacity self (VNum q)
  = Raise (AssertionError "toolbar_opacity is out of range (0-1)").
Proof.
  unfold AppBar.set_toolbar_opacity, py_ge. simpl.
  destruct (Qle_bool q 0) eqn:H0; simpl; [| reflexivity].
  destruct (Qle_bool 1 q) eqn:H1; simpl; [| reflexivity].
  apply Qle_bool_iff in H0, H1.
  exfalso. apply (Qle_not_lt 1 0); [eapply Qle_trans; eassumption | reflexivity].
Qed.

Lemma toolbar_opacity_accepts_None (self : Obj) :
  AppBar.set_toolbar_opacity self VNone
  = Ok (Control._set_attr self "toolbarOpacity" VNone).
Proof. reflexivity. Qed.

(** C2: the value 0.5 lies in the range [0,1], yet the toolbar_opacity
    setter raises its range assertion on it and stores nothing; so does
    the constructor when it is given that value. *)
Theorem toolbar_opacity_half_rejected (self : Obj) :
  (0 <= 1 # 2 <= 1)%Q /\
  AppBar.set_toolbar_opacity self (VNum (1 # 2))
    = Raise (AssertionError "toolbar_opacity is out of range (0-1)") /\
  AppBar.__init__ {["toolbar_opacity" := VNum (1 # 2)]}
    = Raise (AssertionError "toolbar_opacity is out of range (0-1)").
Proof.
  split; [split; discriminate |].
  split; [apply toolbar_opacity_rejects_every_number | reflexivity].
Qed.

(** ** AutoComplete *)

Lemma py_or_optional_list (v : option (list PyVal)) :
  py_or (of_optional_list v) (VList []) = VList (default [] v).
Proof. destruct v as [[|x l]|]; reflexivity. Qed.

Lemma suggestions_after_set (self : Obj) (value : PyVal) :
  (o ← AutoComplete.set_suggestions self value; AutoComplete.suggestions o)
  = Ok (py_or value (VList [])).
Proof.
  unfold AutoComplete.set_suggestions, AutoComplete.suggestions. simpl.
  apply getfield_setfield.
Qed.

Lemma py_or_list_not_none (value : PyVal) :
  is_none (py_or value (VList [])) = false.
Proof.
  unfold py_or. destruct (truthy value) eqn:E; [| reflexivity].
  by destruct value.
Qed.

Lemma set_attr_json_lookup (self : Obj) (key : string) (v : PyVal) :
  is_none v = false ->
  attrs (Control._set_attr_json self key v) !! key = Some (VJson v).
Proof.
  intros H. unfold Control._set_attr_json, Control._convert_attr_json, Control._set_attr.
  rewrite H. simpl. by rewrite lookup_insert_eq.
Qed.

Lemma set_attr_json_None (self : Obj) (key : string) :
  attrs (Control._set_attr_json self key VNone) !! key = None.
Proof.
  unfold Control._set_attr_json, Control._convert_attr_json, Control._set_attr.
  simpl. by rewrite lookup_delete_eq.
Qed.

Lemma serialized_after_set (self : Obj) (value : PyVal) :
  (o ← AutoComplete.set_suggestions self value;
   o ← AutoComplete.before_update o;
   Ok (AutoComplete.serialized_suggestions o))
  = Ok (Some (VJson (py_or value (VList [])))).
Proof.
  unfold AutoComplete.set_suggestions, AutoComplete.before_update, json_from_field.
  simpl. rewrite getfield_setfield. simpl.
  unfold AutoComplete.serialized_suggestions.
  by rewrite set_attr_json_lookup by apply py_or_list_not_none.
Qed.

(** C10: whatever is assigned to suggestions (a list or None), reading the
    property returns a list: the one assigned, or the empty list for None;
    before_update then serializes that list and does not raise.  The
    constructor makes the first such assignment. *)
Theorem suggestions_always_a_list (self : Obj) (value : option (list PyVal)) :
  (o ← AutoComplete.set_suggestions self (of_optional_list value);
   AutoComplete.suggestions o)
  = Ok (VList (default [] value)) /\
  (o ← AutoComplete.set_suggestions self (of_optional_list value);
   o ← AutoComplete.before_update o;
   Ok (AutoComplete.serialized_suggestions o))
  = Ok (Some (VJson (VList (default [] value)))) /\
  (o ← AutoComplete.__init__ ∅; AutoComplete.suggestions o) = Ok (VList []).
Proof.
  split; [| split].
  - by rewrite suggestions_after_set, py_or_optional_list.
  - by rewrite serialized_after_set, py_or_optional_list.
  - reflexivity.
Qed.

(** C8, as stated, fails: a suggestion with neither key nor value that is
    assigned to an AutoComplete is still part of what before_update
    serializes. *)
Lemma unset_suggestion_is_serialized :
  (o ← AutoComplete.__init__ {["suggestions" := VList [unset_suggestion]]};
   o ← AutoComplete.before_update o;
   Ok (serialized_list o))
  = Ok (Some [unset_suggestion]) /\
  unset_suggestion ∈ [unset_suggestion].
Proof. split; [reflexivity | apply list_elem_of_here]. Qed.

(** C8, amended: before_update serializes the suggestions exactly as they
    were assigned, in the same order, whatever their keys and values; the
    control itself neither filters the list nor drops a suggestion (None or
    an empty list is serialized as the empty list). *)
Theorem suggestions_serialized_as_assigned (self : Obj) (value : option (list PyVal)) :
  (o ← AutoComplete.set_suggestions self (of_optional_list value);
   o ← AutoComplete.before_update o;
   Ok (serialized_list o))
  = Ok (Some (default [] value)).
Proof.
  unfold AutoComplete.set_suggestions, AutoComplete.before_update, json_from_field.
  simpl. rewrite getfield_setfield. simpl.
  unfold serialized_list, AutoComplete.serialized_suggestions.
  rewrite set_attr_json_lookup by apply py_or_list_not_none.
  by rewrite py_or_optional_list.
Qed.

(** ** Round trips through a property *)

Lemma attr_set_then_get (self : Obj) (key : string) (v d : PyVal) (data_type : string) :
  (o ← attr_setter key self v; Control._get_attr o key d data_type)
  = if is_none v then Ok d else Control.coerce data_type v.
Proof.
  unfold attr_setter, Control._get_attr, Control._set_attr. simpl.
  destruct (is_none v); simpl.
  - by rewrite lookup_delete_eq.
  - by rewrite lookup_insert_eq.
Qed.

Lemma coerce_not_text (data_type : string) (v : PyVal) :
  (forall s, v ≠ VStr s) -> Control.coerce data_type v = Ok v.
Proof. intros Hv. destruct v; try reflexivity. by destruct (Hv s). Qed.

Lemma coerce_not_converted (data_type : string) (v : PyVal) :
  data_type ∉ converted_types -> Control.coerce data_type v = Ok v.
Proof.
  intros Hd. destruct v; try reflexivity. unfold Control.coerce.
  destruct (String.eqb_spec data_type "bool") as [-> | _];
    [destruct Hd; unfold converted_types; repeat constructor |].
  destruct (String.eqb_spec data_type "float") as [-> | _];
    [destruct Hd; unfold converted_types; repeat constructor |].
  destruct (String.eqb_spec data_type "int") as [-> | _];
    [destruct Hd; unfold converted_types; repeat constructor |].
  reflexivity.
Qed.

Lemma attr_round_trip (self : Obj) (key data_type : string) (v : PyVal) :
  data_type ∉ converted_types ->
  round_trips (attr_setter key) (fun o => Control._get_attr o key VNone data_type) self v.
Proof.
  intros Hd. unfold round_trips. rewrite attr_set_then_get.
  rewrite (coerce_not_converted _ _ Hd). by destruct v.
Qed.

Lemma field_round_trip (self : Obj) (field : string) (v : PyVal) :
  round_trips (field_setter field) (fun o => getfield o field) self v.
Proof. unfold round_trips, field_setter. simpl. apply getfield_setfield. Qed.

(** A setter that asserts a condition before it stores: when it returns,
    it has stored the value. *)
Lemma checked_set_then_get (cond : Result bool) (msg key : string)
      (self o : Obj) (v d : PyVal) (data_type : string) :
  (c ← cond; _ ← py_assert c msg; Ok (Control._set_attr self key v)) = Ok o ->
  Control._get_attr o key d data_type
  = if is_none v then Ok d else Control.coerce data_type v.
Proof.
  intros E. rewrite <- (attr_set_then_get self key v d data_type).
  destruct cond as [[]|e]; simpl in E; try discriminate.
  by injection E as <-.
Qed.

Lemma value_if_member_of_enum (C : string) (x : PyVal) :
  value_if_member C (enum_member C x) = Ok x.
Proof.
  unfold value_if_member, enum_member. cbn [isinstance].
  rewrite bool_decide_eq_true_2 by apply list_elem_of_here.
  reflexivity.
Qed.

Lemma value_if_member_of_other (C : string) (v : PyVal) :
  isinstance v C = false -> value_if_member C v = Ok v.
Proof. intros E. unfold value_if_member. by rewrite E. Qed.

(** A setter that assigns a private field and then stores the value, or
    the value of the enum member, in the attribute map. *)
Lemma mirrored_set_then_get (field key C : string) (self : Obj) (v : PyVal) :
  (isinstance v C = false \/ exists x, v = enum_member C x) ->
  (o ← (let self := setfield self field v in
        x ← value_if_member C v;
        Ok (Control._set_attr self key x));
   getfield o field)
  = Ok v.
Proof.
  intros Hv.
  assert (Hx : exists x, value_if_member C v = Ok x).
  { destruct Hv as [E | [x ->]].
    - exists v. by apply value_if_member_of_other.
    - exists x. apply value_if_member_of_enum. }
  destruct Hx as [x ->]. cbn [mbind Result_bind].
  unfold getfield, setfield, Control._set_attr. cbn [dict].
  by rewrite lookup_insert_eq.
Qed.

(** The getter of CupertinoTextField.placeholder_style reads a field that
    the setter does not assign: where no other code has assigned that
    field, reading the property raises also right after it was set. *)
Lemma placeholder_style_reads_another_field (self : Obj) (v : PyVal) :
  dict self !! "_CupertinoTextField__hint_style" = None ->
  (o ← CupertinoTextField.set_placeholder_style self v;
   CupertinoTextField.placeholder_style o)
  = Raise (AttributeError "_CupertinoTextField__hint_style").
Proof.
  intros E. unfold CupertinoTextField.set_placeholder_style, field_setter.
  cbn [mbind Result_bind]. apply getfield_None.
  unfold setfield. cbn [dict]. by rewrite lookup_insert_ne.
Qed.

(** C3, as stated, fails: None assigned to AutoComplete.suggestions does
    not read back as None. *)
Lemma suggestions_None_does_not_round_trip :
  ~ round_trips AutoComplete.set_suggestions AutoComplete.suggestions
      (built (AutoComplete.__init__ ∅)) VNone.
Proof. unfold round_trips. vm_compute. discriminate. Qed.

Ltac not_converted := apply (bool_decide_unpack _); vm_compute; exact I.

(** C3, amended: setting a property to v and reading it back returns v
    for every property whose setter assigns the value as given to a
    private field and whose getter returns that field, and for every
    property whose setter stores the value with _set_attr and whose
    getter reads it with _get_attr, declaring no default and no bool,
    float or int data type.  A property stored with _set_attr whose
    getter declares a default or one of these data types reads back the
    declared default after None and otherwise the value coerced to the
    declared type, which is the value itself unless it is text; the same
    holds behind a setter that asserts a range first, whenever the setter
    returns.  The enum properties of CupertinoTextField, whose setters
    also store the member's value in the attribute map, read back v.
    AutoComplete.suggestions reads back v, but the empty list when v is
    None or otherwise false; CupertinoTextField.shadow reads back v, but
    the empty list when v is None.  The tables list every property of
    these forms that the control classes declare. *)
Theorem property_round_trip (self : Obj) (v : PyVal) :
  Forall (fun '(set, get) => round_trips set get self v)
    (field_properties ++ attr_properties) /\
  Forall (fun '(set, get, d, data_type) =>
            (o ← set self v; get o)
            = if is_none v then Ok d else Control.coerce data_type v)
    typed_properties /\
  Forall (fun '(set, get, d, data_type) =>
            forall o, set self v = Ok o ->
                      get o = if is_none v then Ok d else Control.coerce data_type v)
    checked_properties /\
  Forall (fun '(set, get, C) =>
            (isinstance v C = false \/ exists x, v = enum_member C x) ->
            round_trips set get self v)
    mirrored_properties /\
  (forall data_type : string,
      (forall s, v ≠ VStr s) -> Control.coerce data_type v = Ok v) /\
  (forall field : string,
      round_trips (field_setter field) (fun o => getfield o field) self v) /\
  (forall (key : string) (d : PyVal) (data_type : string),
      (o ← attr_setter key self v; Control._get_attr o key d data_type)
      = if is_none v then Ok d else Control.coerce data_type v) /\
  (o ← AutoComplete.set_suggestions self v; AutoComplete.suggestions o)
  = Ok (if truthy v then v else VList []) /\
  (o ← CupertinoTextField.set_shadow self v; CupertinoTextField.shadow o)
  = Ok (if is_none v then VList [] else v).
Proof.
  split; [| split; [| split; [| split; [| split; [| split; [| split; [| split]]]]]]].
  - apply Forall_app. split.
    + repeat constructor; apply field_round_trip.
    + repeat constructor; apply attr_round_trip; not_converted.
  - repeat constructor; apply attr_set_then_get.
  - repeat constructor; intros o E.
    + unfold AppBar.set_toolbar_opacity in E.
      exact (checked_set_then_get _ _ _ _ _ _ _ _ E).
    + unfold AutoComplete.set_suggestions_max_height in E.
      exact (checked_set_then_get _ _ _ _ _ _ _ _ E).
    + unfold BottomAppBar.set_elevation in E.
      exact (checked_set_then_get _ _ _ _ _ _ _ _ E).
  - repeat constructor; intros Hv; by apply mirrored_set_then_get.
  - intros data_type Hv. by apply coerce_not_text.
  - intros field. apply field_round_trip.
  - intros key d data_type. apply attr_set_then_get.
  - apply suggestions_after_set.
  - unfold CupertinoTextField.set_shadow, CupertinoTextField.shadow.
    cbn [mbind Result_bind]. rewrite getfield_setfield. by destruct (is_none v).
Qed.

(** ** AlertDialog *)

Lemma alert_dialog_init_dict (kw : gmap string PyVal) :
  exists o, AlertDialog.__init__ kw = Ok o /\
            dict o = <["scrollable" := arg kw "scrollable" VNone]>
                     (<["icon" := arg kw "icon" VNone]> ∅).
Proof.
  eexists. split.
  - unfold AlertDialog.__init__, assign_all, AlertDialog.props. simpl. reflexivity.
  - simpl. unfold arg. rewrite !lookup_insert_ne by done. reflexivity.
Qed.

(** Whatever the constructor is given, the dialog it builds fails in
    before_update: the hook reads a private field no setter assigns. *)
Lemma alert_dialog_before_update_always_raises (kw : gmap string PyVal) :
  (o ← AlertDialog.__init__ kw; AlertDialog.before_update o)
  = Raise (AttributeError "_AlertDialog__title").
Proof.
  destruct (alert_dialog_init_dict kw) as (o & -> & Hd). simpl.
  unfold AlertDialog.before_update. simpl.
  rewrite (getfield_None o "_AlertDialog__title"); [reflexivity |].
  rewrite Hd. by rewrite !lookup_insert_ne, lookup_empty by done.
Qed.

(** C1: a dialog that is given a title is constructed, its title is in
    the attribute map, and before_update nevertheless raises (an attribute
    error on the private field _AlertDialog__title) instead of passing the
    validation. *)
Theorem alert_dialog_with_title_rejected :
  (o ← AlertDialog.__init__ {["title" := VObj sample_text]}; AlertDialog.title o)
  = Ok (VObj sample_text) /\
  (o ← AlertDialog.__init__ {["title" := VObj sample_text]}; AlertDialog.before_update o)
  = Raise (AttributeError "_AlertDialog__title").
Proof.
  split; [reflexivity | apply alert_dialog_before_update_always_raises].
Qed.

Lemma alert_dialog_setters_keep_title_unassigned
  (o : Obj) (set : Obj -> PyVal -> Result Obj) (v : PyVal) :
  In set (snd <$> AlertDialog.props) ->
  dict o !! "_AlertDialog__title" = None ->
  exists o', set o v = Ok o' /\ dict o' !! "_AlertDialog__title" = None.
Proof.
  intros Hin Hd. simpl in Hin.
  repeat (destruct Hin as [<- | Hin];
          [eexists; split; [reflexivity | simpl; try assumption;
                                          by rewrite lookup_insert_ne by done] |]).
  destruct Hin.
Qed.

(** ** Children *)

Lemma mapM_tag (role : string) (l : list Obj) :
  mapM (tag role) (VObj <$> l) = Ok (VObj <$> (tagged role <$> l)).
Proof.
  induction l as [|c l IH]; [reflexivity |].
  rewrite fmap_cons. cbn [mapM tag]. rewrite IH. reflexivity.
Qed.

(** On an AppBar whose actions are a list, and whose leading control,
    title and actions are pairwise different controls, _get_children
    returns the leading control and the title, if set, and then the
    actions in the order given, each with its role. *)
Lemma app_bar_children_of_list
  (self : Obj) (lead title : option Obj) (acts : list Obj) :
  dict self !! "_AppBar__leading" = Some (of_optional_control lead) ->
  dict self !! "_AppBar__title" = Some (of_optional_control title) ->
  dict self !! "_AppBar__actions" = Some (VList (VObj <$> acts)) ->
  NoDup (option_list lead ++ option_list title ++ acts) ->
  exists self',
    AppBar._get_children self
    = Ok (self', VObj <$> (option_list (tagged "leading" <$> lead)
                           ++ option_list (tagged "title" <$> title)
                           ++ (tagged "action" <$> acts))).
Proof.
  intros Hl Ht Ha _. unfold AppBar._get_children.
  rewrite (getfield_Some _ _ _ Hl).
  destruct lead as [l|]; destruct title as [t|]; simpl;
    rewrite ?getfield_setfield_ne by done;
    rewrite (getfield_Some _ _ _ Ht); simpl;
    rewrite ?getfield_setfield_ne by done;
    rewrite (getfield_Some _ _ _ Ha); simpl;
    rewrite mapM_tag; simpl; eexists; reflexivity.
Qed.

(** On an AppBar whose actions are None, _get_children raises after it
    has dealt with leading and title. *)
Lemma app_bar_children_of_None (self : Obj) (lead title : option Obj) :
  dict self !! "_AppBar__leading" = Some (of_optional_control lead) ->
  dict self !! "_AppBar__title" = Some (of_optional_control title) ->
  dict self !! "_AppBar__actions" = Some VNone ->
  AppBar._get_children self = Raise (TypeError "'NoneType' object is not iterable").
Proof.
  intros Hl Ht Ha. unfold AppBar._get_children.
  rewrite (getfield_Some _ _ _ Hl).
  destruct lead as [l|]; destruct title as [t|]; simpl;
    rewrite ?getfield_setfield_ne by done;
    rewrite (getfield_Some _ _ _ Ht); simpl;
    rewrite ?getfield_setfield_ne by done;
    rewrite (getfield_Some _ _ _ Ha); reflexivity.
Qed.

Lemma badge_children (self : Obj) (content : option Obj) :
  dict self !! "_Badge__content" = Some (of_optional_control content) ->
  exists self',
    Badge._get_children self
    = Ok (self', VObj <$> option_list (tagged "content" <$> content)).
Proof.
  intros Hc. unfold Badge._get_children. rewrite (getfield_Some _ _ _ Hc).
  destruct content; simpl; eexists; reflexivity.
Qed.

(** C5: on an AppBar whose actions were never given, or were given as
    None, _get_children raises a type error (None is not iterable) instead
    of returning the children without any action. *)
Theorem app_bar_children_without_actions_raise :
  (o ← AppBar.__init__ ∅; AppBar.actions o) = Ok VNone /\
  (o ← AppBar.__init__ ∅; AppBar._get_children o)
  = Raise (TypeError "'NoneType' object is not iterable") /\
  (o ← AppBar.__init__ {["title" := VObj sample_text; "actions" := VNone]};
   AppBar._get_children o)
  = Raise (TypeError "'NoneType' object is not iterable").
Proof. repeat split; reflexivity. Qed.

(** ** Flattening structured values in before_update *)

Lemma has_fields_lookup (fs : list string) (self : Obj) (f : string) :
  has_fields fs self = true -> f ∈ fs -> exists v, dict self !! f = Some v.
Proof.
  unfold has_fields. intros H Hin.
  apply list_elem_of_In in Hin.
  rewrite forallb_forall in H. specialize (H f Hin).
  destruct (dict self !! f) as [v|]; [by exists v | discriminate].
Qed.

Lemma dict_set_attr (self : Obj) (key : string) (v : PyVal) :
  dict (Control._set_attr self key v) = dict self.
Proof. reflexivity. Qed.

Lemma attrs_set_attr_ne (self : Obj) (key key' : string) (v : PyVal) :
  key ≠ key' -> attrs (Control._set_attr self key v) !! key' = attrs self !! key'.
Proof.
  intros H. unfold Control._set_attr. simpl.
  destruct (is_none v); [by rewrite lookup_delete_ne | by rewrite lookup_insert_ne].
Qed.

Lemma attrs_set_attr_None (self : Obj) (key : string) :
  attrs (Control._set_attr self key VNone) !! key = None.
Proof. unfold Control._set_attr. simpl. by rewrite lookup_delete_eq. Qed.

Lemma json_from_field_Some (field key : string) (self : Obj) (v : PyVal) :
  dict self !! field = Some v ->
  json_from_field field key self = Ok (Control._set_attr_json self key v).
Proof. intros H. unfold json_from_field. by rewrite (getfield_Some _ _ _ H). Qed.

Lemma json_from_field_if_Some (C field key : string) (self : Obj) (v : PyVal) :
  dict self !! field = Some v ->
  json_from_field_if C field key self
  = Ok (if isinstance v C then Control._set_attr_json self key v else self).
Proof.
  intros H. unfold json_from_field_if. rewrite (getfield_Some _ _ _ H). simpl.
  destruct (isinstance v C); [by apply json_from_field_Some | reflexivity].
Qed.

Lemma attrs_set_attr_json_ne (self : Obj) (key key' : string) (v : PyVal) :
  key ≠ key' -> attrs (Control._set_attr_json self key v) !! key' = attrs self !! key'.
Proof. intros H. by apply attrs_set_attr_ne. Qed.

Lemma attrs_flatten_if_ne (self : Obj) (key key' : string) (v : PyVal) (b : bool) :
  key ≠ key' ->
  attrs (if b then Control._set_attr_json self key v else self) !! key'
  = attrs self !! key'.
Proof. intros H. destruct b; [by apply attrs_set_attr_ne | reflexivity]. Qed.

Lemma dict_flatten_if (self : Obj) (key : string) (v : PyVal) (b : bool) :
  dict (if b then Control._set_attr_json self key v else self) = dict self.
Proof. by destruct b. Qed.

(** Looks a private field up in an object that went through setters and
    flattening steps. *)
Ltac field_known :=
  rewrite ?dict_flatten_if; simpl;
  rewrite ?lookup_insert_ne by done;
  first [eassumption | apply lookup_insert_eq].

Ltac flatten_with v :=
  first [ erewrite (json_from_field_Some _ _ _ v) by field_known
        | erewrite (json_from_field_if_Some _ _ _ _ v) by field_known ];
  cbn [mbind Result_bind].

Ltac attr_untouched :=
  cbn [isinstance];
  repeat first [ rewrite attrs_flatten_if_ne by done
               | rewrite attrs_set_attr_json_ne by done
               | rewrite attrs_set_attr_ne by done ].

(** C4, as stated, fails: an AppBar whose title text style was serialized
    once keeps the titleTextStyle entry in its attribute map after the
    property is set to None and before_update runs again. *)
Lemma app_bar_text_style_entry_survives_None :
  (o ← AppBar.__init__ {["actions" := VList []; "title_text_style" := sample_text_style]};
   o ← AppBar.before_update o;
   o ← AppBar.set_title_text_style o VNone;
   o ← AppBar.before_update o;
   Ok (attrs o !! "titleTextStyle"))
  = Ok (Some (VJson sample_text_style)).
Proof. reflexivity. Qed.

(** C4, amended: a colour set to None has no entry in the attribute map
    after before_update; a structured property that before_update
    flattens unconditionally (Badge.padding, Badge.text_style) has no
    entry after it was set to None and before_update ran, whatever it held
    before; for AppBar.title_text_style, toolbar_text_style and shape,
    which before_update flattens only when they hold a value of their
    class, before_update after None leaves the entry as it was: absent if
    nothing had been serialized, the earlier encoding otherwise. *)
Theorem unset_property_not_serialized (bar badge : Obj) :
  has_fields AppBar_fields bar = true ->
  has_fields Badge_fields badge = true ->
  (exists o, (o ← AppBar.set_color bar VNone; AppBar.before_update o) = Ok o
             /\ attrs o !! "color" = None) /\
  (exists o, (o ← AppBar.set_bgcolor bar VNone; AppBar.before_update o) = Ok o
             /\ attrs o !! "bgcolor" = None) /\
  (exists o, (o ← Badge.set_bgcolor badge VNone; Badge.before_update o) = Ok o
             /\ attrs o !! "bgColor" = None) /\
  (exists o, (o ← Badge.set_padding badge VNone; Badge.before_update o) = Ok o
             /\ attrs o !! "padding" = None) /\
  (exists o, (o ← Badge.set_text_style badge VNone; Badge.before_update o) = Ok o
             /\ attrs o !! "textStyle" = None) /\
  (exists o, (o ← AppBar.set_title_text_style bar VNone; AppBar.before_update o) = Ok o
             /\ attrs o !! "titleTextStyle" = attrs bar !! "titleTextStyle") /\
  (exists o, (o ← AppBar.set_toolbar_text_style bar VNone; AppBar.before_update o) = Ok o
             /\ attrs o !! "toolbarTextStyle" = attrs bar !! "toolbarTextStyle") /\
  (exists o, (o ← AppBar.set_shape bar VNone; AppBar.before_update o) = Ok o
             /\ attrs o !! "shape" = attrs bar !! "shape").
Proof.
  intros Hbar Hbadge.
  destruct (has_fields_lookup _ _ "_AppBar__title_text_style" Hbar) as [ts Hts];
    [set_solver |].
  destruct (has_fields_lookup _ _ "_AppBar__toolbar_text_style" Hbar) as [tb Htb];
    [set_solver |].
  destruct (has_fields_lookup _ _ "_AppBar__shape" Hbar) as [sh Hsh]; [set_solver |].
  destruct (has_fields_lookup _ _ "_Badge__offset" Hbadge) as [bo Hbo]; [set_solver |].
  destruct (has_fields_lookup _ _ "_Badge__alignment" Hbadge) as [ba Hba]; [set_solver |].
  destruct (has_fields_lookup _ _ "_Badge__padding" Hbadge) as [bp Hbp]; [set_solver |].
  destruct (has_fields_lookup _ _ "_Badge__text_style" Hbadge) as [bt Hbt]; [set_solver |].
  repeat split.
  - unfold AppBar.set_color, attr_setter, AppBar.before_update, Control.before_update.
    cbn [mbind Result_bind].
    flatten_with ts. flatten_with tb. flatten_with sh.
    eexists; split; [reflexivity |]. attr_untouched. apply attrs_set_attr_None.
  - unfold AppBar.set_bgcolor, attr_setter, AppBar.before_update, Control.before_update.
    cbn [mbind Result_bind].
    flatten_with ts. flatten_with tb. flatten_with sh.
    eexists; split; [reflexivity |]. attr_untouched. apply attrs_set_attr_None.
  - unfold Badge.set_bgcolor, attr_setter, Badge.before_update, Control.before_update.
    cbn [mbind Result_bind].
    flatten_with bo. flatten_with ba. flatten_with bp. flatten_with bt.
    eexists; split; [reflexivity |]. attr_untouched. apply attrs_set_attr_None.
  - unfold Badge.set_padding, field_setter, Badge.before_update, Control.before_update.
    cbn [mbind Result_bind].
    flatten_with bo. flatten_with ba. flatten_with VNone. flatten_with bt.
    eexists; split; [reflexivity |]. attr_untouched. apply set_attr_json_None.
  - unfold Badge.set_text_style, field_setter, Badge.before_update, Control.before_update.
    cbn [mbind Result_bind].
    flatten_with bo. flatten_with ba. flatten_with bp. flatten_with VNone.
    eexists; split; [reflexivity |]. apply set_attr_json_None.
  - unfold AppBar.set_title_text_style, field_setter, AppBar.before_update,
      Control.before_update. cbn [mbind Result_bind].
    flatten_with VNone. flatten_with tb. flatten_with sh.
    eexists; split; [reflexivity |]. attr_untouched. reflexivity.
  - unfold AppBar.set_toolbar_text_style, field_setter, AppBar.before_update,
      Control.before_update. cbn [mbind Result_bind].
    flatten_with ts. flatten_with VNone. flatten_with sh.
    eexists; split; [reflexivity |]. attr_untouched. reflexivity.
  - unfold AppBar.set_shape, field_setter, AppBar.before_update,
      Control.before_update. cbn [mbind Result_bind].
    flatten_with ts. flatten_with tb. flatten_with VNone.
    eexists; split; [reflexivity |]. attr_untouched. reflexivity.
Qed.

Lemma unset_property_not_serialized_witness :
  has_fields AppBar_fields sample_app_bar = true /\
  has_fields Badge_fields sample_badge = true /\
  (exists o, (o ← AppBar.set_color sample_app_bar VNone; AppBar.before_update o) = Ok o
             /\ attrs o !! "color" = None) /\
  (exists o, (o ← Badge.set_padding sample_badge VNone; Badge.before_update o) = Ok o
             /\ attrs o !! "padding" = None).
Proof.
  assert (Hbar : has_fields AppBar_fields sample_app_bar = true) by reflexivity.
  assert (Hbadge : has_fields Badge_fields sample_badge = true) by reflexivity.
  destruct (unset_property_not_serialized sample_app_bar sample_badge Hbar Hbadge)
    as (Hc & _ & _ & Hp & _).
  exact (conj Hbar (conj Hbadge (conj Hc Hp))).
Defined.

(** ** SafeArea *)

Lemma visible_optional_bool (c : Obj) :
  is_optional_bool (attrs c !! "visible") = true ->
  exists b : bool, Control.visible c = Ok (VBool b).
Proof.
  unfold Control.visible, Control._get_attr. intros H.
  destruct (attrs c !! "visible") as [[]|]; try discriminate; eexists; reflexivity.
Qed.

Lemma constrained_before_update_ok (self : Obj) :
  has_fields ConstrainedControl_fields self = true ->
  exists o, ConstrainedControl.before_update self = Ok o /\ dict o = dict self.
Proof.
  intros H.
  destruct (has_fields_lookup _ _ "_ConstrainedControl__rotate" H) as [v1 H1]; [set_solver |].
  destruct (has_fields_lookup _ _ "_ConstrainedControl__scale" H) as [v2 H2]; [set_solver |].
  destruct (has_fields_lookup _ _ "_ConstrainedControl__offset" H) as [v3 H3]; [set_solver |].
  destruct (has_fields_lookup _ _ "_ConstrainedControl__animate_opacity" H) as [v4 H4];
    [set_solver |].
  destruct (has_fields_lookup _ _ "_ConstrainedControl__animate_size" H) as [v5 H5];
    [set_solver |].
  destruct (has_fields_lookup _ _ "_ConstrainedControl__animate_position" H) as [v6 H6];
    [set_solver |].
  destruct (has_fields_lookup _ _ "_ConstrainedControl__animate_rotation" H) as [v7 H7];
    [set_solver |].
  destruct (has_fields_lookup _ _ "_ConstrainedControl__animate_scale" H) as [v8 H8];
    [set_solver |].
  destruct (has_fields_lookup _ _ "_ConstrainedControl__animate_offset" H) as [v9 H9];
    [set_solver |].
  unfold ConstrainedControl.before_update, Control.before_update.
  cbn [mbind Result_bind].
  flatten_with v1. flatten_with v2. flatten_with v3. flatten_with v4. flatten_with v5.
  flatten_with v6. flatten_with v7. flatten_with v8. flatten_with v9.
  eexists; split; reflexivity.
Qed.

(** C9: on a SafeArea whose content is a control, _get_children returns
    exactly one child, the content with the role "content", whatever else
    is set on the SafeArea; and when its private fields are assigned (as
    the constructor leaves them) and the content's visible flag is a
    boolean or unset, before_update raises the assertion error "content
    must be visible" exactly when that flag is False, and returns normally
    otherwise. *)
Theorem safe_area_content_visible (self content : Obj) :
  dict self !! "_SafeArea__content" = Some (VObj content) ->
  (SafeArea._get_children self
   = Ok (setfield self "_SafeArea__content" (VObj (tagged "content" content)),
         [VObj (tagged "content" content)]) /\
   Control.role (tagged "content" content) = Some (VStr "content")) /\
  (has_fields SafeArea_fields self = true ->
   is_optional_bool (attrs content !! "visible") = true ->
   (Control.visible content = Ok (VBool false) ->
    SafeArea.before_update self = Raise (AssertionError "content must be visible")) /\
   (Control.visible content ≠ Ok (VBool false) ->
    exists o, SafeArea.before_update self = Ok o)).
Proof.
  intros Hc. split.
  { split.
    - unfold SafeArea._get_children. by rewrite (getfield_Some _ _ _ Hc).
    - unfold Control.role, tagged, Control._set_attr_internal, Control._set_attr.
      simpl. apply lookup_insert_eq. }
  intros Hf Hv.
  assert (Hcc : has_fields ConstrainedControl_fields self = true).
  { unfold SafeArea_fields, has_fields in Hf. rewrite forallb_app in Hf.
    by apply andb_true_iff in Hf as [Hf _]. }
  destruct (constrained_before_update_ok self Hcc) as (o & Ho & Hd).
  destruct (has_fields_lookup _ _ "_SafeArea__minimum" Hf) as [m Hm];
    [unfold SafeArea_fields; set_solver |].
  destruct (has_fields_lookup _ _ "_SafeArea__minimum_padding" Hf) as [mp Hmp];
    [unfold SafeArea_fields; set_solver |].
  rewrite <- Hd in Hc, Hm, Hmp.
  destruct (visible_optional_bool content Hv) as [b Hb].
  assert (Hrun : SafeArea.before_update self
                 = if b then json_from_field "_SafeArea__minimum" "minimum" o
                             ≫= json_from_field "_SafeArea__minimum_padding" "minimumPadding"
                   else Raise (AssertionError "content must be visible")).
  { unfold SafeArea.before_update. rewrite Ho. cbn [mbind Result_bind].
    rewrite (getfield_Some _ _ _ Hc). cbn [mbind Result_bind visible_of].
    rewrite Hb. by destruct b. }
  split.
  - intros Hfalse. rewrite Hb in Hfalse. injection Hfalse as ->. exact Hrun.
  - intros Hnot. rewrite Hrun. destruct b; [| by rewrite Hb in Hnot].
    flatten_with m. flatten_with mp. eexists; reflexivity.
Qed.

(** The constructor leaves a SafeArea in the state the theorem above
    asks for. *)
Lemma safe_area_init_fields (kw : gmap string PyVal) (c : Obj) :
  kw !! "content" = Some (VObj c) ->
  exists o, SafeArea.__init__ kw = Ok o /\
            has_fields SafeArea_fields o = true /\
            dict o !! "_SafeArea__content" = Some (VObj c).
Proof.
  intros Hc. eexists. split; [| split].
  - unfold SafeArea.__init__, ConstrainedControl.__init__, assign_all,
      ConstrainedControl.props, SafeArea.props. simpl. reflexivity.
  - reflexivity.
  - simpl. unfold arg. rewrite Hc. reflexivity.
Qed.

End Properties.

Lemma safe_area_content_visible_witness :
  dict sample_safe_area !! "_SafeArea__content" = Some (VObj sample_text) /\
  has_fields SafeArea_fields sample_safe_area = true /\
  is_optional_bool (attrs sample_text !! "visible") = true /\
  Control.visible (builtins := sample_builtins) sample_text ≠ Ok (VBool false) /\
  (exists o, SafeArea.before_update (builtins := sample_builtins) sample_safe_area = Ok o) /\
  SafeArea._get_children sample_safe_area
  = Ok (setfield sample_safe_area "_SafeArea__content"
          (VObj (tagged "content" sample_text)),
        [VObj (tagged "content" sample_text)]).
Proof.
  assert (Hc : dict sample_safe_area !! "_SafeArea__content" = Some (VObj sample_text))
    by reflexivity.
  assert (Hf : has_fields SafeArea_fields sample_safe_area = true) by reflexivity.
  assert (Hv : is_optional_bool (attrs sample_text !! "visible") = true) by reflexivity.
  assert (Hn : Control.visible (builtins := sample_builtins) sample_text ≠ Ok (VBool false))
    by (vm_compute; discriminate).
  destruct (safe_area_content_visible (builtins := sample_builtins)
              sample_safe_area sample_text Hc)
    as ((Hch & _) & Hupd).
  destruct (Hupd Hf Hv) as (_ & Hok).
  exact (conj Hc (conj Hf (conj Hv (conj Hn (conj (Hok Hn) Hch))))).
Defined.
